(** * Chyavan: a shallow embedding of the tracking library

    The development follows the [Chyavan] class (constructor, [getEndpoint],
    [init], [enable], [track], [flush], [sendEvents], the scroll handler,
    [isSensitiveField], [sanitizeText], [debounce]) and, for the three free
    helper functions, the stand-alone script [src/index.js].

    Conventions of the embedding.
    - A JavaScript string is the list of its code units.  Code units are
      taken in the 8-bit (Latin-1) range, so that [toLowerCase] is a
      code-unit-wise map that keeps lengths.
    - [text.length], array lengths and counters are [nat]; configuration
      numbers ([bufferSize], [flushInterval]) and clock values are [Z].
    - The numbers of the scroll handler are IEEE-754 binary64 values, as
      JavaScript numbers are: [PrimFloat.float].
    - Methods that mutate [this] are functions in a small state monad with
      exceptions; the part of [flush] after its [await] is a second
      function, run when the request settles.
    - Console output ([log], [logConsole], [console.table]) is not
      modelled. *)

From Stdlib Require Import Ascii String List Bool Arith PeanoNat ZArith Lia.
From Stdlib Require Import PrimFloat FloatOps SpecFloat Uint63.
From Stdlib Require Import Permutation.
Import ListNotations.

Set Implicit Arguments.

(** ** JavaScript strings *)

Module JsString.

Definition jsstring : Type := list ascii.

(** A string literal of the source. *)
Definition lit (s : string) : jsstring := list_ascii_of_string s.

(** [!text] on a string: only the empty string is falsy. *)
Definition falsy (s : jsstring) : bool :=
  match s with
  | [] => true
  | _ :: _ => false
  end.

Definition eqb (s t : jsstring) : bool :=
  if list_eq_dec ascii_dec s t then true else false.

(** [s.startsWith(p)] *)
Fixpoint startsWith (s p : jsstring) {struct p} : bool :=
  match p, s with
  | [], _ => true
  | _ :: _, [] => false
  | c :: p', d :: s' => Ascii.eqb c d && startsWith s' p'
  end.

(** [s.includes(w)] *)
Fixpoint includes (s w : jsstring) : bool :=
  startsWith s w ||
  match s with
  | [] => false
  | _ :: s' => includes s' w
  end.

(** [sub] occurs in [s] as a contiguous run of code units. *)
Definition Substring (sub s : jsstring) : Prop :=
  exists pre post, s = pre ++ sub ++ post.

(** [toLowerCase] on one Latin-1 code unit: A-Z, and the accented capitals
    U+00C0..U+00DE except the multiplication sign U+00D7, move up by 32. *)
Definition lowerUnit (c : ascii) : ascii :=
  let n := nat_of_ascii c in
  if ((65 <=? n) && (n <=? 90)) ||
     ((192 <=? n) && (n <=? 222) && negb (n =? 215))
  then ascii_of_nat (n + 32)
  else c.

Definition toLowerCase (s : jsstring) : jsstring := map lowerUnit s.

(** The character class [\d]. *)
Definition isDecimalDigit (c : ascii) : bool :=
  let n := nat_of_ascii c in (48 <=? n) && (n <=? 57).

(** [/^\d+$/.test(text)]: one or more code units, all of them digits. *)
Definition onlyDigits (text : jsstring) : bool :=
  match text with
  | [] => false
  | _ :: _ => forallb isDecimalDigit text
  end.

Definition digitChar (d : nat) : ascii := ascii_of_nat (48 + d).

Fixpoint numberToString_aux (fuel n : nat) (acc : jsstring) : jsstring :=
  match fuel with
  | O => acc
  | S fuel' =>
      let acc' := digitChar (n mod 10) :: acc in
      if n / 10 =? 0 then acc' else numberToString_aux fuel' (n / 10) acc'
  end.

(** [`${n}`] for a length [n]: its decimal digits, most significant first. *)
Definition numberToString (n : nat) : jsstring :=
  numberToString_aux (S n) n [].

(** Reading a run of decimal digits back, used to show that
    [numberToString] loses nothing. *)
Definition digitStep (acc : nat) (c : ascii) : nat :=
  10 * acc + (nat_of_ascii c - 48).

Definition digitsValue (s : jsstring) : nat := fold_left digitStep s 0.

End JsString.

Import JsString.

(** ** The redactor of the [Chyavan] class *)

(** [sanitizeText(text)] *)
Definition sanitizeText (text : jsstring) : jsstring :=
  if falsy text then []
  else if onlyDigits text
       then lit "[" ++ numberToString (length text) ++ lit " digits]"
       else lit "[" ++ numberToString (length text) ++ lit " characters]".

(** ** Capture targets and the sensitivity check *)

Module Element.

(** The attributes of a DOM element that the library reads.  A missing
    attribute ([undefined]) is [None]. *)
Record t : Type := make {
  tagName : jsstring;
  type : option jsstring;
  name : option jsstring;
  autocomplete : option jsstring
}.

End Element.

(** [(v || '')] on an attribute. *)
Definition orEmpty (v : option jsstring) : jsstring :=
  match v with
  | Some s => s
  | None => []
  end.

(** [isSensitiveField(el)]; a [null] target is [None]. *)
Definition isSensitiveField (el : option Element.t) : bool :=
  match el with
  | None => false
  | Some el =>
      let type := toLowerCase (orEmpty (Element.type el)) in
      let name := toLowerCase (orEmpty (Element.name el)) in
      let autocomplete := toLowerCase (orEmpty (Element.autocomplete el)) in
      JsString.eqb type (lit "password") ||
      JsString.eqb type (lit "hidden") ||
      includes name (lit "card") ||
      includes name (lit "cvv") ||
      includes name (lit "password") ||
      includes name (lit "ssn") ||
      includes name (lit "secret") ||
      includes name (lit "token") ||
      startsWith autocomplete (lit "cc-")
  end.

(** The vocabulary that [isSensitiveField] looks for in the name. *)
Definition vocabulary : list jsstring :=
  [lit "card"; lit "cvv"; lit "password"; lit "ssn"; lit "secret"; lit "token"].

(** [name] contains [word] when letter case is ignored: some run of [name]
    becomes [word] once lower-cased.  This is the reading of
    "case-insensitively contains" that the code is compared with. *)
Definition containsIgnoringCase (name word : jsstring) : Prop :=
  exists pre mid post, name = pre ++ mid ++ post /\ toLowerCase mid = word.

(** The classification as the specification words it: the type attribute
    equals one of two words, the name contains a vocabulary word when case
    is ignored, the autocomplete attribute starts with [cc-]. *)
Definition SensitiveAsSpecified (el : option Element.t) : Prop :=
  exists e, el = Some e /\
    (orEmpty (Element.type e) = lit "password" \/
     orEmpty (Element.type e) = lit "hidden" \/
     (exists w, In w vocabulary /\ containsIgnoringCase (orEmpty (Element.name e)) w) \/
     startsWith (orEmpty (Element.autocomplete e)) (lit "cc-") = true).

(** The classification that the code computes: as above, with the type and
    autocomplete attributes lower-cased before they are compared. *)
Definition SensitiveIgnoringCase (el : option Element.t) : Prop :=
  exists e, el = Some e /\
    (toLowerCase (orEmpty (Element.type e)) = lit "password" \/
     toLowerCase (orEmpty (Element.type e)) = lit "hidden" \/
     (exists w, In w vocabulary /\ containsIgnoringCase (orEmpty (Element.name e)) w) \/
     startsWith (toLowerCase (orEmpty (Element.autocomplete e))) (lit "cc-") = true).

(** The helpers of the same names in [src/index.js].  Its [debounce] is the
    one of the class, word for word. *)
Module Standalone.

(** [isSensitiveField]: the same test with a vocabulary of four words. *)
Definition isSensitiveField (el : option Element.t) : bool :=
  match el with
  | None => false
  | Some el =>
      let type := match Element.type el with
                  | Some s => if falsy s then [] else toLowerCase s
                  | None => []
                  end in
      let name := toLowerCase (orEmpty (Element.name el)) in
      let autocomplete := toLowerCase (orEmpty (Element.autocomplete el)) in
      JsString.eqb type (lit "password") ||
      JsString.eqb type (lit "hidden") ||
      includes name (lit "card") ||
      includes name (lit "cvv") ||
      includes name (lit "password") ||
      includes name (lit "ssn") ||
      startsWith autocomplete (lit "cc-")
  end.

(** [sanitizeText]: it differs in the wording of the descriptor only. *)
Definition sanitizeText (text : jsstring) : jsstring :=
  if falsy text then []
  else if onlyDigits text
       then lit "Typed [" ++ numberToString (length text) ++ lit "] digits"
       else lit "Typed [" ++ numberToString (length text) ++ lit "] characters".

End Standalone.

(** ** JavaScript numbers of the scroll handler *)

Module JsNumber.

Local Open Scope float_scope.

(** Truthiness of a number: [0], [-0] and [NaN] are falsy. *)
Definition truthy (x : float) : bool :=
  negb (PrimFloat.is_nan x || PrimFloat.is_zero x).

(** [a || b] on numbers. *)
Definition orElse (a b : float) : float := if truthy a then a else b.

Definition ofZ (z : Z) : float :=
  let magnitude := PrimFloat.of_uint63 (Uint63.of_Z (Z.abs z)) in
  if (z <? 0)%Z then - magnitude else magnitude.

(** [Math.round]: the integer nearest to [x], ties towards +Infinity; NaN,
    the infinities and both zeros are returned as they are, and a result of
    zero keeps the sign of [x].  A finite [x] is [m * 2^e] up to sign; for
    [e >= 0] it is an integer already, otherwise the result is the floor of
    [x + 1/2], computed on integers and below [2^53] in size. *)
Definition Math_round (x : float) : float :=
  match Prim2SF x with
  | S754_finite s m e =>
      if (0 <=? e)%Z then x
      else
        let d := (2 ^ (- e))%Z in
        let num := if s then Z.neg m else Z.pos m in
        let r := ((2 * num + d) / (2 * d))%Z in
        if (r =? 0)%Z then (if s then PrimFloat.neg_zero else PrimFloat.zero)
        else ofZ r
  | _ => x
  end.

(** [x === y] on numbers. *)
Definition strictEq (x y : float) : bool := PrimFloat.eqb x y.

End JsNumber.

(** ** Events *)

Module Event.

(** The [data] payloads that the library itself builds, and a carrier for
    the payload of a caller's own [track] call. *)
Inductive payload : Type :=
| Keystroke (element : jsstring) (fieldType : option jsstring)
            (sanitized : jsstring) (length : nat)
| Mouse (x y : float) (element action : jsstring)
| Scroll (x y percentage : float)
| Custom (fields : list (jsstring * jsstring)).

Record t : Type := make {
  type : jsstring;
  timestamp : Z;
  data : payload;
  sessionId : option jsstring;
  url : jsstring;
  userAgent : jsstring
}.

End Event.

(** ** The scroll handler's arithmetic *)

Module Scroll.

(** What the handler reads: [window.pageYOffset], [window.pageXOffset],
    [scrollTop], [scrollLeft] and [scrollHeight] of
    [document.documentElement], and [window.innerHeight]. *)
Record state : Type := make {
  pageYOffset : float;
  pageXOffset : float;
  documentScrollTop : float;
  documentScrollLeft : float;
  scrollHeight : float;
  innerHeight : float
}.

Local Open Scope float_scope.

Definition maxScrollTop (w : state) : float :=
  scrollHeight w - innerHeight w.

(** [Math.round((scrollTop / maxScrollTop) * 100)] *)
Definition scrollPercentage (w : state) : float :=
  let scrollTop := JsNumber.orElse (pageYOffset w) (documentScrollTop w) in
  JsNumber.Math_round ((scrollTop / maxScrollTop w) * 100).

(** The payload handed to [track('scroll', ...)]. *)
Definition payload (w : state) : Event.payload :=
  let scrollTop := JsNumber.orElse (pageYOffset w) (documentScrollTop w) in
  let scrollLeft := JsNumber.orElse (pageXOffset w) (documentScrollLeft w) in
  Event.Scroll scrollLeft scrollTop (scrollPercentage w).

End Scroll.

(** ** Configuration *)

(** What a call of the [onFlush] callback does, as far as [flush] can tell:
    it returns or it throws.  The callback is taken to leave the batch and
    the instance alone. *)
Inductive HookResult : Type := HookReturns | HookThrows.

(** What a call of [consentCheck] does. *)
Inductive ConsentResult : Type := ConsentGiven | ConsentDenied | ConsentThrows.

Module Config.

Record t : Type := make {
  mode : jsstring;
  apiKey : option jsstring;
  apiEndpoint : option jsstring;
  debug : bool;
  bufferSize : Z;
  flushInterval : Z;
  onFlush : option (list Event.t -> HookResult);
  consentCheck : option (unit -> ConsentResult)
}.

Definition withApiEndpoint (e : option jsstring) (c : t) : t :=
  make (mode c) (apiKey c) e (debug c) (bufferSize c) (flushInterval c)
       (onFlush c) (consentCheck c).

End Config.

Module Options.

(** The [options] argument of the constructor: every key may be absent. *)
Record t : Type := make {
  mode : option jsstring;
  apiKey : option jsstring;
  apiEndpoint : option jsstring;
  debug : option bool;
  bufferSize : option Z;
  flushInterval : option Z;
  onFlush : option (list Event.t -> HookResult);
  consentCheck : option (unit -> ConsentResult)
}.

Definition none : t := make None None None None None None None None.

End Options.

(** [given ?? dflt] for a key of the spread [{ ...defaults, ...options }]. *)
Definition keyOr {A : Type} (given : option A) (dflt : A) : A :=
  match given with
  | Some v => v
  | None => dflt
  end.

Definition keyOrNull {A : Type} (given dflt : option A) : option A :=
  match given with
  | Some v => Some v
  | None => dflt
  end.

(** Truthiness of a string-or-null value. *)
Definition truthyString (v : option jsstring) : bool :=
  match v with
  | Some s => negb (falsy s)
  | None => false
  end.

(** [getEndpoint()] *)
Definition getEndpoint (c : Config.t) : option jsstring :=
  let mode := Config.mode c in
  let apiKey := Config.apiKey c in
  let apiEndpoint := Config.apiEndpoint c in
  if JsString.eqb mode (lit "console") then None
  else if JsString.eqb mode (lit "self-hosted") && truthyString apiEndpoint
  then apiEndpoint
  else if JsString.eqb mode (lit "hosted") && truthyString apiKey
  then Some (lit "https://api.chyavan.io/track?key=" ++ orEmpty apiKey)
  else if truthyString apiEndpoint then apiEndpoint
  else None.

(** ** The tracker and its surroundings *)

(** A registered DOM listener. *)
Inductive Listener : Type :=
| InputListener (input : Element.t)
| ClickListener
| ScrollListener.

Module Tracker.

(** The fields of a [Chyavan] instance. *)
Record t : Type := make {
  config : Config.t;
  eventBuffer : list Event.t;
  isTrackingEnabled : bool;
  observers : nat;
  listeners : list Listener;
  flushTimer : option Z;
  sessionId : option jsstring
}.

Definition withConfig (c : Config.t) (k : t) : t :=
  make c (eventBuffer k) (isTrackingEnabled k) (observers k) (listeners k)
       (flushTimer k) (sessionId k).

Definition withEventBuffer (b : list Event.t) (k : t) : t :=
  make (config k) b (isTrackingEnabled k) (observers k) (listeners k)
       (flushTimer k) (sessionId k).

Definition withEnabled (e : bool) (k : t) : t :=
  make (config k) (eventBuffer k) e (observers k) (listeners k)
       (flushTimer k) (sessionId k).

Definition withHandles (o : nat) (l : list Listener) (k : t) : t :=
  make (config k) (eventBuffer k) (isTrackingEnabled k) o l
       (flushTimer k) (sessionId k).

Definition withFlushTimer (f : option Z) (k : t) : t :=
  make (config k) (eventBuffer k) (isTrackingEnabled k) (observers k)
       (listeners k) f (sessionId k).

Definition withSessionId (i : option jsstring) (k : t) : t :=
  make (config k) (eventBuffer k) (isTrackingEnabled k) (observers k)
       (listeners k) (flushTimer k) i.

End Tracker.

(** What the page and the clock answer when the library asks. *)
Module Env.

Record t : Type := make {
  now : Z;                       (* Date.now() *)
  href : jsstring;               (* window.location.href *)
  userAgent : jsstring;          (* navigator.userAgent *)
  inputs : list Element.t;       (* document.querySelectorAll('input, textarea') *)
  freshSessionId : jsstring      (* the value generateSessionId() builds *)
}.

End Env.

(** The calls that leave the instance, in the order they are made.
    [FlushCalled] marks an entry into [flush]. *)
Inductive Effect : Type :=
| FlushCalled
| HookCalled (batch : list Event.t)
| FetchPosted (endpoint : jsstring) (batch : list Event.t)
| IntervalStarted (ms : Z)
| IntervalCleared.

Definition isFlushCalled (e : Effect) : bool :=
  match e with FlushCalled => true | _ => false end.

Definition isHookCalled (e : Effect) : bool :=
  match e with HookCalled _ => true | _ => false end.

Definition isFetchPosted (e : Effect) : bool :=
  match e with FetchPosted _ _ => true | _ => false end.

(** How a posted request ends. *)
Inductive FetchOutcome : Type :=
| FetchRejected                                   (* fetch() rejects *)
| Responded (ok : bool) (bodyIsJson : bool).      (* a response arrived *)

Inductive Exn : Type :=
| HookError
| ConsentError
| NetworkError
| HttpError
| BodyError.

Module Machine.

(** An instance together with the requests that [flush] is waiting on
    (each with the batch its continuation holds) and the effects so far. *)
Record t : Type := make {
  self : Tracker.t;
  inflight : list (nat * list Event.t);
  nextRequest : nat;
  trace : list Effect
}.

End Machine.

(** ** The monad of the methods: state and exceptions *)

Definition M (A : Type) : Type := Machine.t -> (Exn + A) * Machine.t.

Definition ret {A : Type} (a : A) : M A := fun m => (inr a, m).

Definition bind {A B : Type} (c : M A) (k : A -> M B) : M B :=
  fun m =>
    match c m with
    | (inr a, m') => k a m'
    | (inl e, m') => (inl e, m')
    end.

Definition throw {A : Type} (e : Exn) : M A := fun m => (inl e, m).

(** [try { body } catch (error) { handler(error) }] *)
Definition tryCatch {A : Type} (body : M A) (handler : Exn -> M A) : M A :=
  fun m =>
    match body m with
    | (inr a, m') => (inr a, m')
    | (inl e, m') => handler e m'
    end.

(** A call of an [async] method whose promise nobody awaits: what it
    throws does not reach the caller. *)
Definition detached (c : M unit) : M unit :=
  fun m => (inr tt, snd (c m)).

Definition this : M Tracker.t := fun m => (inr (Machine.self m), m).

Definition update (f : Tracker.t -> Tracker.t) : M unit :=
  fun m => (inr tt, Machine.make (f (Machine.self m)) (Machine.inflight m)
                                 (Machine.nextRequest m) (Machine.trace m)).

Definition perform (e : Effect) : M unit :=
  fun m => (inr tt, Machine.make (Machine.self m) (Machine.inflight m)
                                 (Machine.nextRequest m) (Machine.trace m ++ [e])).

(** The continuation of a [flush] is parked until its request settles. *)
Definition suspend (batch : list Event.t) : M unit :=
  fun m => (inr tt, Machine.make (Machine.self m)
                                 (Machine.inflight m ++ [(Machine.nextRequest m, batch)])
                                 (S (Machine.nextRequest m)) (Machine.trace m)).

Declare Scope method_scope.
Delimit Scope method_scope with method.
Notation "x <- c ;; k" := (bind c (fun x => k))
  (at level 61, c at next level, right associativity) : method_scope.
Notation "c ;; k" := (bind c (fun _ => k))
  (at level 61, right associativity) : method_scope.
Notation "'when' b 'then' c" := (if b then c else ret tt)
  (at level 60, b at level 9, c at level 60) : method_scope.

Local Open Scope method_scope.

(** ** Methods of the class *)

(** [startFlushTimer()] *)
Definition startFlushTimer : M unit :=
  k <- this ;;
  let ms := Config.flushInterval (Tracker.config k) in
  perform (IntervalStarted ms) ;;
  update (Tracker.withFlushTimer (Some ms)).

(** [setupEventListeners()]: one [input] listener for every input that is
    not sensitive, the mutation observer, the click and the scroll listener. *)
Definition setupEventListeners (env : Env.t) : M unit :=
  let inputListeners :=
    map InputListener
        (filter (fun i => negb (isSensitiveField (Some i))) (Env.inputs env)) in
  update (fun k =>
    Tracker.withHandles (S (Tracker.observers k))
      (Tracker.listeners k ++ inputListeners ++ [ClickListener; ScrollListener]) k).

(** [enable()] *)
Definition enable (env : Env.t) : M unit :=
  k <- this ;;
  if Tracker.isTrackingEnabled k then ret tt
  else
    update (Tracker.withEnabled true) ;;
    setupEventListeners env ;;
    when (negb (JsString.eqb (Config.mode (Tracker.config k)) (lit "console")))
    then startFlushTimer.

(** [cleanup()] *)
Definition cleanup : M unit :=
  k <- this ;;
  (match Tracker.flushTimer k with
   | Some _ => perform IntervalCleared ;; update (Tracker.withFlushTimer None)
   | None => ret tt
   end) ;;
  update (Tracker.withHandles 0 []).

(** [disable()] *)
Definition disable : M unit :=
  k <- this ;;
  if negb (Tracker.isTrackingEnabled k) then ret tt
  else update (Tracker.withEnabled false) ;; cleanup.

(** The call [this.config.consentCheck()]; the default callback reads
    [localStorage], and what it finds is the environment's answer. *)
Definition callConsentCheck (dflt : ConsentResult) : M bool :=
  k <- this ;;
  let answer := match Config.consentCheck (Tracker.config k) with
                | Some f => f tt
                | None => dflt
                end in
  match answer with
  | ConsentGiven => ret true
  | ConsentDenied => ret false
  | ConsentThrows => throw ConsentError
  end.

(** [init()] *)
Definition init (env : Env.t) (storedConsent : ConsentResult) : M unit :=
  tryCatch
    (k <- this ;;
     if JsString.eqb (Config.mode (Tracker.config k)) (lit "console")
     then enable env
     else
       consented <- callConsentCheck storedConsent ;;
       when consented then enable env)
    (fun _ => ret tt).

(** The spread [{ ...defaults, ...options }] of the constructor. *)
Definition mergeOptions (o : Options.t) : Config.t :=
  Config.make
    (keyOr (Options.mode o) (lit "console"))
    (keyOrNull (Options.apiKey o) None)
    (keyOrNull (Options.apiEndpoint o) None)
    (keyOr (Options.debug o) false)
    (keyOr (Options.bufferSize o) 20%Z)
    (keyOr (Options.flushInterval o) 5000%Z)
    (keyOrNull (Options.onFlush o) None)
    (Options.consentCheck o).

(** [new Chyavan(options)]: the result says whether the constructor threw,
    and the machine holds the new instance. *)
Definition constructor (options : Options.t) (env : Env.t)
    (storedConsent : ConsentResult) : (Exn + unit) * Machine.t :=
  let config := mergeOptions options in
  let config := Config.withApiEndpoint (getEndpoint config) config in
  let instance :=
    Tracker.make config [] false 0 [] None (Some (Env.freshSessionId env)) in
  init env storedConsent (Machine.make instance [] 0 []).

(** The first half of [sendEvents(events)], up to its [await]: without an
    endpoint it returns at once, otherwise the request is posted. *)
Inductive SendState : Type := NothingToSend | RequestPosted.

Definition sendEvents (events : list Event.t) : M SendState :=
  k <- this ;;
  match Config.apiEndpoint (Tracker.config k) with
  | Some endpoint =>
      if falsy endpoint then ret NothingToSend
      else perform (FetchPosted endpoint events) ;; ret RequestPosted
  | None => ret NothingToSend
  end.

(** The second half of [sendEvents]: a rejected [fetch], a response that is
    not [ok] and a body that [response.json()] rejects all make it throw. *)
Definition sendEventsSettled (outcome : FetchOutcome) : M unit :=
  match outcome with
  | FetchRejected => throw NetworkError
  | Responded ok bodyIsJson =>
      if negb ok then throw HttpError
      else if bodyIsJson then ret tt
      else throw BodyError
  end.

(** Does the request end in a way that makes [sendEvents] throw? *)
Definition sendFails (outcome : FetchOutcome) : bool :=
  match outcome with
  | FetchRejected => true
  | Responded ok bodyIsJson => negb ok || negb bodyIsJson
  end.

(** [this.eventBuffer.unshift(...events)], the body of the [catch]. *)
Definition requeue (events : list Event.t) : M unit :=
  update (fun k => Tracker.withEventBuffer (events ++ Tracker.eventBuffer k) k).

(** [flush()], up to its [await]. *)
Definition flush : M unit :=
  perform FlushCalled ;;
  k <- this ;;
  if Nat.eqb (length (Tracker.eventBuffer k)) 0 then ret tt
  else
    let events := Tracker.eventBuffer k in
    update (Tracker.withEventBuffer []) ;;
    if JsString.eqb (Config.mode (Tracker.config k)) (lit "console") then ret tt
    else
      tryCatch
        ((match Config.onFlush (Tracker.config k) with
          | Some hook =>
              perform (HookCalled events) ;;
              match hook events with
              | HookReturns => ret tt
              | HookThrows => throw HookError
              end
          | None => ret tt
          end) ;;
         sent <- sendEvents events ;;
         match sent with
         | RequestPosted => suspend events
         | NothingToSend => ret tt
         end)
        (fun _ => requeue events).

Fixpoint lookupRequest (id : nat) (l : list (nat * list Event.t))
  : option (list Event.t) :=
  match l with
  | [] => None
  | (i, batch) :: l' => if Nat.eqb i id then Some batch else lookupRequest id l'
  end.

Fixpoint removeRequest (id : nat) (l : list (nat * list Event.t))
  : list (nat * list Event.t) :=
  match l with
  | [] => []
  | (i, batch) :: l' =>
      if Nat.eqb i id then l' else (i, batch) :: removeRequest id l'
  end.

Definition resume (id : nat) : M (option (list Event.t)) :=
  fun m =>
    (inr (lookupRequest id (Machine.inflight m)),
     Machine.make (Machine.self m) (removeRequest id (Machine.inflight m))
                  (Machine.nextRequest m) (Machine.trace m)).

(** [flush()] after its [await]: request [id] has settled with [outcome]. *)
Definition flushSettled (id : nat) (outcome : FetchOutcome) : M unit :=
  parked <- resume id ;;
  match parked with
  | None => ret tt
  | Some events =>
      tryCatch (sendEventsSettled outcome) (fun _ => requeue events)
  end.

(** [track(type, data)] *)
Definition track (env : Env.t) (type : jsstring) (data : Event.payload) : M unit :=
  k <- this ;;
  if negb (Tracker.isTrackingEnabled k) then ret tt
  else
    let event := Event.make type (Env.now env) data (Tracker.sessionId k)
                            (Env.href env) (Env.userAgent env) in
    update (fun k => Tracker.withEventBuffer (Tracker.eventBuffer k ++ [event]) k) ;;
    k <- this ;;
    when (Config.bufferSize (Tracker.config k)
            <=? Z.of_nat (length (Tracker.eventBuffer k)))%Z
    then detached flush.

(** The debounced scroll callback, at the moment its timer fires. *)
Definition scrollHandler (env : Env.t) (w : Scroll.state) : M unit :=
  track env (lit "scroll") (Scroll.payload w).

(** The debounced keystroke callback, at the moment its timer fires. *)
Definition keystrokeHandler (env : Env.t) (target : Element.t) (value : jsstring)
  : M unit :=
  if isSensitiveField (Some target) then ret tt
  else track env (lit "keystroke")
         (Event.Keystroke (Element.tagName target) (Element.type target)
                          (sanitizeText value) (length value)).

(** The spread [{ ...this.config, ...newConfig }]. *)
Definition overrideConfig (o : Options.t) (c : Config.t) : Config.t :=
  Config.make
    (keyOr (Options.mode o) (Config.mode c))
    (keyOrNull (Options.apiKey o) (Config.apiKey c))
    (keyOrNull (Options.apiEndpoint o) (Config.apiEndpoint c))
    (keyOr (Options.debug o) (Config.debug c))
    (keyOr (Options.bufferSize o) (Config.bufferSize c))
    (keyOr (Options.flushInterval o) (Config.flushInterval c))
    (keyOrNull (Options.onFlush o) (Config.onFlush c))
    (keyOrNull (Options.consentCheck o) (Config.consentCheck c)).

(** [updateConfig(newConfig)] *)
Definition updateConfig (newConfig : Options.t) : M unit :=
  update (fun k =>
    let config := overrideConfig newConfig (Tracker.config k) in
    Tracker.withConfig (Config.withApiEndpoint (getEndpoint config) config) k).

(** [destroy()] *)
Definition destroy : M unit :=
  disable ;;
  update (Tracker.withEventBuffer []) ;;
  update (Tracker.withSessionId None).

(** What can happen on the event loop between two turns. *)
Inductive Action : Type :=
| Track (env : Env.t) (type : jsstring) (data : Event.payload)
| TimerTick
| Settle (id : nat) (outcome : FetchOutcome).

Definition step (a : Action) : M unit :=
  match a with
  | Track env type data => track env type data
  | TimerTick => detached flush
  | Settle id outcome => detached (flushSettled id outcome)
  end.

Fixpoint run (actions : list Action) : M unit :=
  match actions with
  | [] => ret tt
  | a :: rest => step a ;; run rest
  end.

Definition flushCalls (m : Machine.t) : nat :=
  length (filter isFlushCalled (Machine.trace m)).

Local Close Scope method_scope.

(** ** Timers and [debounce] *)

Module Debounce.

Section Payload.

(** The arguments of the debounced function. *)
Variable A : Type.

Record timer : Type := mkTimer {
  id : nat;
  due : Z;
  args : A
}.

(** The host's timer table, and the calls of the wrapped [fn] so far, each
    with the time at which its timer was due. *)
Record loop : Type := mkLoop {
  nextId : nat;
  pending : list timer;
  emitted : list (Z * A)
}.

Definition emptyLoop : loop := mkLoop 0 [] [].

(** [setTimeout(() => fn(args), delay)] at time [now]. *)
Definition setTimeout (now delay : Z) (a : A) (l : loop) : nat * loop :=
  (nextId l,
   mkLoop (S (nextId l)) (pending l ++ [mkTimer (nextId l) (now + delay) a])
          (emitted l)).

(** [clearTimeout(handle)]; [undefined] or a timer that fired is ignored. *)
Definition clearTimeout (handle : option nat) (l : loop) : loop :=
  match handle with
  | None => l
  | Some i =>
      mkLoop (nextId l) (filter (fun t => negb (Nat.eqb (id t) i)) (pending l))
             (emitted l)
  end.

Definition emission (t : timer) : Z * A := (due t, args t).

(** The clock reaches [now]: every timer that is due fires. *)
Definition advance (now : Z) (l : loop) : loop :=
  mkLoop (nextId l)
         (filter (fun t => negb (due t <=? now)%Z) (pending l))
         (emitted l ++ map emission (filter (fun t => (due t <=? now)%Z) (pending l))).

(** No further call arrives: the timers left fire in turn. *)
Definition drain (l : loop) : loop :=
  mkLoop (nextId l) [] (emitted l ++ map emission (pending l)).

(** The closure that [debounce(fn, delay)] returns: [delay] and the
    variable [timeout]. *)
Record debounced : Type := mkDebounced {
  delay : Z;
  timeout : option nat
}.

(** [debounce(fn, delay)] *)
Definition debounce (d : Z) : debounced := mkDebounced d None.

(** A call of the returned function with [a], at time [now]. *)
Definition call (now : Z) (a : A) (s : debounced * loop) : debounced * loop :=
  let (d, l) := s in
  let l := clearTimeout (timeout d) l in
  let (handle, l) := setTimeout now (delay d) a l in
  (mkDebounced (delay d) (Some handle), l).

(** Calls at the given times, the clock advancing to each in turn. *)
Fixpoint runCalls (calls : list (Z * A)) (s : debounced * loop)
  : debounced * loop :=
  match calls with
  | [] => s
  | (t, a) :: rest => runCalls rest (call t a (fst s, advance t (snd s)))
  end.

(** Every call of [fn] that a sequence of calls leads to. *)
Definition emissions (d : Z) (calls : list (Z * A)) : list (Z * A) :=
  emitted (drain (snd (runCalls calls (debounce d, emptyLoop)))).

(** The calls that no later call overtakes within [d]: each is the last of
    its burst. *)
Fixpoint lastOfBursts (d : Z) (calls : list (Z * A)) : list (Z * A) :=
  match calls with
  | [] => []
  | (t, a) :: rest =>
      match rest with
      | [] => [(t, a)]
      | (t', _) :: _ =>
          if (t + d <=? t')%Z then (t, a) :: lastOfBursts d rest
          else lastOfBursts d rest
      end
  end.

(** One burst: every call comes less than [d] after the one before it. *)
Fixpoint burst (d prev : Z) (calls : list (Z * A)) : Prop :=
  match calls with
  | [] => True
  | (t, _) :: rest => (prev <= t < prev + d)%Z /\ burst d t rest
  end.

(** At most one timer is pending, and [timeout] holds its handle. *)
Definition tidy (s : debounced * loop) : Prop :=
  pending (snd s) = [] \/
  exists t, pending (snd s) = [t] /\ timeout (fst s) = Some (id t).

Definition shifted (d : Z) (c : Z * A) : Z * A := ((fst c + d)%Z, snd c).


End Payload.

End Debounce.

(** ** Vocabulary of the statements *)

(** Request identifiers are handed out in increasing order. *)
Definition wellFormed (m : Machine.t) : Prop :=
  Forall (fun request => fst request < Machine.nextRequest m) (Machine.inflight m).

(** The configured [onFlush] callback throws when it is given [batch]. *)
Definition hookThrows (c : Config.t) (batch : list Event.t) : bool :=
  match Config.onFlush c with
  | Some hook => match hook batch with HookThrows => true | HookReturns => false end
  | None => false
  end.

Definition settles (id : nat) (a : Action) : bool :=
  match a with
  | Settle i _ => Nat.eqb i id
  | _ => false
  end.

(** A [track] call as it is put on the event loop. *)
Definition trackAction (call : Env.t * jsstring * Event.payload) : Action :=
  let '(env, type, data) := call in Track env type data.

(** The event that [track] builds for such a call. *)
Definition eventOf (k : Tracker.t) (call : Env.t * jsstring * Event.payload)
  : Event.t :=
  let '(env, type, data) := call in
  Event.make type (Env.now env) data (Tracker.sessionId k)
             (Env.href env) (Env.userAgent env).

Definition bufferOf (m : Machine.t) : list Event.t :=
  Tracker.eventBuffer (Machine.self m).

Definition configOf (m : Machine.t) : Config.t :=
  Tracker.config (Machine.self m).

(** The machine after [track]'s [push], before the capacity test. *)
Definition pushed (event : Event.t) (m : Machine.t) : Machine.t :=
  Machine.make
    (Tracker.withEventBuffer (bufferOf m ++ [event]) (Machine.self m))
    (Machine.inflight m) (Machine.nextRequest m) (Machine.trace m).

(** What a turn of the event loop leaves alone, as seen by the
    continuation that waits on request [id]. *)
Record preserved (id : nat) (m m' : Machine.t) : Prop := mkPreserved {
  keeps_config : configOf m' = configOf m;
  keeps_enabled : Tracker.isTrackingEnabled (Machine.self m')
                  = Tracker.isTrackingEnabled (Machine.self m);
  keeps_session : Tracker.sessionId (Machine.self m')
                  = Tracker.sessionId (Machine.self m);
  requests_grow : Machine.nextRequest m <= Machine.nextRequest m';
  keeps_request : id < Machine.nextRequest m ->
                  lookupRequest id (Machine.inflight m')
                  = lookupRequest id (Machine.inflight m);
  keeps_wellFormed : wellFormed m -> wellFormed m'
}.

(** A setting is valid when it is an integer above zero. *)
Definition validSetting (z : Z) : Prop := (0 < z)%Z.

(** ** Sample inputs *)

Module Sample.

Local Open Scope float_scope.

(** An element whose type attribute is written in capitals, as
    [<a type="PASSWORD">] reports it. *)
Definition capitalPassword : Element.t :=
  Element.make (lit "A") (Some (lit "PASSWORD")) None None.

Definition env (now : Z) : Env.t :=
  Env.make now (lit "https://example.test/") (lit "agent") []
           (lit "session_k3x9q2m1a_0").

(** A page as tall as its viewport, not scrolled. *)
Definition unscrollable : Scroll.state := Scroll.make 0 0 0 0 600 600.

(** The same page while an elastic overscroll reports an offset of 10. *)
Definition overscrolled : Scroll.state := Scroll.make 10 0 0 0 600 600.

(** A page shorter than its viewport, reporting an offset of 50. *)
Definition shortPage : Scroll.state := Scroll.make 50 0 0 0 600 800.

(** [new Chyavan({ bufferSize: 0 })] *)
Definition zeroCapacity : Options.t :=
  Options.make None None None None (Some 0%Z) None None None.

(** [new Chyavan({ mode: 'self-hosted', apiEndpoint: '/track', bufferSize: 3 })] *)
Definition selfHosted : Options.t :=
  Options.make (Some (lit "self-hosted")) None (Some (lit "/track")) None
               (Some 3%Z) None None None.

Definition hosted : Machine.t :=
  snd (constructor selfHosted (env 0) ConsentGiven).

Definition console : Machine.t :=
  snd (constructor Options.none (env 0) ConsentDenied).

Definition click (label : string) : Env.t * jsstring * Event.payload :=
  (env 0, lit "mouse", Event.Mouse 1 2 (lit label) (lit "click")).

(** The same instance with a larger capacity, holding the events A, B, C. *)
Definition loaded : Machine.t :=
  snd (run (map trackAction [click "A"; click "B"; click "C"])
           (snd (constructor
                   (Options.make (Some (lit "self-hosted")) None
                                 (Some (lit "/track")) None (Some 10%Z) None None None)
                   (env 0) ConsentGiven))).

Definition abc : list Event.t :=
  map (eventOf (Machine.self loaded)) [click "A"; click "B"; click "C"].

Definition de : list (Env.t * jsstring * Event.payload) :=
  [click "D"; click "E"].

(** Keystrokes at 0, 100, 150 and 200 ms, with the field's value at each. *)
Definition typing : list (Z * jsstring) :=
  [(100, lit "he"); (150, lit "hel"); (200, lit "hell")]%Z.

(** The instance of capacity 3 after two clicks. *)
Definition twoClicks : Machine.t :=
  snd (run (map trackAction [click "A"; click "B"]) hosted).

End Sample.

(** ** The observation layer *)

Local Open Scope method_scope.

(** The environment as it answers at time [now]. *)
Definition envAt (now : Z) (env : Env.t) : Env.t :=
  Env.make now (Env.href env) (Env.userAgent env) (Env.inputs env)
           (Env.freshSessionId env).

Module Click.

(** The fields of a click event that the mouse handler reads. *)
Record t : Type := make {
  clientX : float;
  clientY : float;
  target : Element.t;
  type : jsstring
}.

End Click.

(** [mouseHandler(e)] of [setupMouseTracking]: not debounced, not filtered. *)
Definition mouseHandler (env : Env.t) (e : Click.t) : M unit :=
  track env (lit "mouse")
        (Event.Mouse (Click.clientX e) (Click.clientY e)
                     (Element.tagName (Click.target e)) (Click.type e)).

Module Mutation.

(** A mutation record: its [type], the [parentElement] of its target ([null]
    is [None]) and the target's [nodeValue]. *)
Record t : Type := make {
  type : jsstring;
  parentElement : option Element.t;
  nodeValue : jsstring
}.

End Mutation.

(** The body of the mutation observer's callback: the calls of
    [debouncedLog] that one batch of mutations leads to, in order. *)
Definition observerCallback (mutations : list Mutation.t)
  : list (Element.t * jsstring) :=
  flat_map
    (fun mutation =>
       if JsString.eqb (Mutation.type mutation) (lit "characterData")
       then match Mutation.parentElement mutation with
            | None => []
            | Some el =>
                if isSensitiveField (Some el) then []
                else [(el, Mutation.nodeValue mutation)]
            end
       else [])
    mutations.

(** The timers of [debouncedLog] fire: [keystrokeHandler] runs for each
    emission, at the time the emission is due. *)
Fixpoint deliver (env : Env.t) (emissions : list (Z * (Element.t * jsstring)))
  : M unit :=
  match emissions with
  | [] => ret tt
  | (t, (target, value)) :: rest =>
      keystrokeHandler (envAt t env) target value ;; deliver env rest
  end.

(** ** The earlier revision of the class *)

(** The class before the operating modes were added.  Its configuration has
    no [mode] and no [apiKey]; the methods below never read the two fields.
    [sendEvents], [startFlushTimer], [cleanup] and [disable] are unchanged
    between the revisions. *)
Module Legacy.

Definition mergeOptions (o : Options.t) : Config.t :=
  Config.make
    (keyOr (Options.mode o) [])
    (Options.apiKey o)
    (keyOrNull (Options.apiEndpoint o) (Some (lit "/track")))
    (keyOr (Options.debug o) false)
    (keyOr (Options.bufferSize o) 20%Z)
    (keyOr (Options.flushInterval o) 5000%Z)
    (keyOrNull (Options.onFlush o) None)
    (Options.consentCheck o).

(** [enable()] *)
Definition enable (env : Env.t) : M unit :=
  k <- this ;;
  if Tracker.isTrackingEnabled k then ret tt
  else
    update (Tracker.withEnabled true) ;;
    setupEventListeners env ;;
    startFlushTimer.

(** [init()] *)
Definition init (env : Env.t) (storedConsent : ConsentResult) : M unit :=
  tryCatch
    (consented <- callConsentCheck storedConsent ;;
     when consented then enable env)
    (fun _ => ret tt).

(** [new Chyavan(options)] *)
Definition constructor (options : Options.t) (env : Env.t)
    (storedConsent : ConsentResult) : (Exn + unit) * Machine.t :=
  let instance :=
    Tracker.make (mergeOptions options) [] false 0 [] None
                 (Some (Env.freshSessionId env)) in
  init env storedConsent (Machine.make instance [] 0 []).

(** [flush()], up to its [await]. *)
Definition flush : M unit :=
  perform FlushCalled ;;
  k <- this ;;
  if Nat.eqb (length (Tracker.eventBuffer k)) 0 then ret tt
  else
    let events := Tracker.eventBuffer k in
    update (Tracker.withEventBuffer []) ;;
    tryCatch
      ((match Config.onFlush (Tracker.config k) with
        | Some hook =>
            perform (HookCalled events) ;;
            match hook events with
            | HookReturns => ret tt
            | HookThrows => throw HookError
            end
        | None => ret tt
        end) ;;
       sent <- sendEvents events ;;
       match sent with
       | RequestPosted => suspend events
       | NothingToSend => ret tt
       end)
      (fun _ => requeue events).

(** [track(type, data)] *)
Definition track (env : Env.t) (type : jsstring) (data : Event.payload) : M unit :=
  k <- this ;;
  if negb (Tracker.isTrackingEnabled k) then ret tt
  else
    let event := Event.make type (Env.now env) data (Tracker.sessionId k)
                            (Env.href env) (Env.userAgent env) in
    update (fun k => Tracker.withEventBuffer (Tracker.eventBuffer k ++ [event]) k) ;;
    k <- this ;;
    when (Config.bufferSize (Tracker.config k)
            <=? Z.of_nat (length (Tracker.eventBuffer k)))%Z
    then detached flush.

End Legacy.

Local Close Scope method_scope.

(** ** Vocabulary of the further statements *)

(** The answer that [init] gets from the consent check. *)
Definition consentAnswer (c : Config.t) (storedConsent : ConsentResult)
  : ConsentResult :=
  match Config.consentCheck c with
  | Some check => check tt
  | None => storedConsent
  end.

Definition isConsole (c : Config.t) : bool :=
  JsString.eqb (Config.mode c) (lit "console").

Definition consentGiven (answer : ConsentResult) : bool :=
  match answer with ConsentGiven => true | _ => false end.

Definition notSensitive (input : Element.t) : bool :=
  negb (isSensitiveField (Some input)).

(** The events that the instance still answers for: the buffer, and the
    batches parked with requests that have not settled. *)
Definition held (m : Machine.t) : list Event.t :=
  bufferOf m ++ concat (map snd (Machine.inflight m)).

(** The events that the [track] calls among [actions] build. *)
Definition trackedBy (k : Tracker.t) (actions : list Action) : list Event.t :=
  flat_map (fun a => match a with
                     | Track env type data => [eventOf k (env, type, data)]
                     | _ => []
                     end) actions.

(** Every request that settles among [actions] fails. *)
Definition everySettleFails (actions : list Action) : bool :=
  forallb (fun a => match a with
                    | Settle _ outcome => sendFails outcome
                    | _ => true
                    end) actions.

(** Every request that settles among [actions] succeeds. *)
Definition everySettleSucceeds (actions : list Action) : bool :=
  forallb (fun a => match a with
                    | Settle _ outcome => negb (sendFails outcome)
                    | _ => true
                    end) actions.

(** The requests posted so far, oldest first. *)
Definition posted (m : Machine.t) : list Effect :=
  filter isFetchPosted (Machine.trace m).

(** The calls of [onFlush] so far. *)
Definition hookCalls (m : Machine.t) : list Effect :=
  filter isHookCalled (Machine.trace m).

(** The machine after [track] calls that only push. *)
Definition pushedAll (calls : list (Env.t * jsstring * Event.payload))
    (m : Machine.t) : Machine.t :=
  Machine.make
    (Tracker.withEventBuffer
       (bufferOf m ++ map (eventOf (Machine.self m)) calls) (Machine.self m))
    (Machine.inflight m) (Machine.nextRequest m) (Machine.trace m).

(** The keystroke event that [keystrokeHandler] builds at time [now]. *)
Definition keystrokeEvent (k : Tracker.t) (env : Env.t) (now : Z)
    (target : Element.t) (value : jsstring) : Event.t :=
  Event.make (lit "keystroke") now
    (Event.Keystroke (Element.tagName target) (Element.type target)
                     (sanitizeText value) (length value))
    (Tracker.sessionId k) (Env.href env) (Env.userAgent env).

(** ** Further sample inputs *)

Module Scenario.

Local Open Scope float_scope.

Definition emailField : Element.t :=
  Element.make (lit "INPUT") (Some (lit "email")) (Some (lit "email")) None.

Definition passwordField : Element.t :=
  Element.make (lit "INPUT") (Some (lit "password")) (Some (lit "pw")) None.

(** [updateConfig({ mode: 'console', apiEndpoint: '/collect' })] *)
Definition toConsole : Options.t :=
  Options.make (Some (lit "console")) None (Some (lit "/collect")) None
               None None None None.

(** [updateConfig({ mode: 'self-hosted' })] *)
Definition toSelfHosted : Options.t :=
  Options.make (Some (lit "self-hosted")) None None None None None None None.

(** [new Chyavan({ mode: 'hosted', bufferSize: 10 })]: no key is given. *)
Definition hostedWithoutKey : Options.t :=
  Options.make (Some (lit "hosted")) None None None (Some 10%Z) None None None.

(** The instance of [Sample.selfHosted] when consent was declined. *)
Definition declined : Machine.t :=
  snd (constructor Sample.selfHosted (Sample.env 0) ConsentDenied).

(** An instance without an endpoint that holds one event. *)
Definition withoutEndpoint : Machine.t :=
  snd (run (map trackAction [Sample.click "A"])
           (snd (constructor hostedWithoutKey (Sample.env 0) ConsentGiven))).

(** [Sample.loaded] after a timer tick: its batch is in flight as request 0;
    then one more click arrives. *)
Definition waiting : Machine.t :=
  snd (run [TimerTick; trackAction (Sample.click "D")] Sample.loaded).

(** A run in which the only request that settles fails. *)
Definition outage : list Action :=
  [trackAction (Sample.click "D"); TimerTick;
   Settle 0 (Responded false true); trackAction (Sample.click "E")].

(** Keystrokes into the e-mail field at 0, 100 and 250 ms. *)
Definition typed : list (Z * (Element.t * jsstring)) :=
  [(100, (emailField, lit "ab")); (250, (emailField, lit "abc"))]%Z.

(** Keystroke emissions on the password field. *)
Definition secretTyping : list (Z * (Element.t * jsstring)) :=
  [(400, (passwordField, lit "hunter2")); (900, (passwordField, lit "hunter22"))]%Z.

Definition clickOnPassword : Click.t :=
  Click.make 10 20 passwordField (lit "click").

(** One batch of mutations: two text changes under the e-mail field's
    element, a child-list change and a text change under a password field. *)
Definition changes : list Mutation.t :=
  [Mutation.make (lit "characterData") (Some emailField) (lit "a");
   Mutation.make (lit "childList") (Some emailField) (lit "x");
   Mutation.make (lit "characterData") (Some passwordField) (lit "p");
   Mutation.make (lit "characterData") (Some emailField) (lit "ab")].

(** [new Chyavan({ mode: 'self-hosted', apiEndpoint: '/track',
    onFlush: () => { throw ... } })] after three clicks. *)
Definition blocked : Machine.t :=
  snd (run (map trackAction [Sample.click "A"; Sample.click "B"; Sample.click "C"])
           (snd (constructor
                   (Options.make (Some (lit "self-hosted")) None
                                 (Some (lit "/track")) None (Some 2%Z) None
                                 (Some (fun _ => HookThrows)) None)
                   (Sample.env 0) ConsentGiven))).


End Scenario.

(** ** Proof tools *)

(** Unfolding of the monad's operations. *)
Ltac run_monad :=
  unfold bind, ret, throw, tryCatch, detached, this, update, perform, suspend;
  cbn [fst snd Machine.self Machine.inflight Machine.nextRequest Machine.trace].

Ltac tracker_fields :=
  cbn [Tracker.config Tracker.eventBuffer Tracker.isTrackingEnabled
       Tracker.observers Tracker.listeners Tracker.flushTimer Tracker.sessionId
       Tracker.withConfig Tracker.withEventBuffer Tracker.withEnabled
       Tracker.withHandles Tracker.withFlushTimer Tracker.withSessionId
       Machine.self Machine.inflight Machine.nextRequest Machine.trace
       fst snd].

(** The ways through [flush]. *)
Ltac use_cases :=
  repeat match goal with
         | H : Tracker.eventBuffer _ = _ |- _ => rewrite H
         | H : JsString.eqb _ _ = _ |- _ => rewrite H
         | H : Config.onFlush _ = _ |- _ => rewrite H
         | H : Config.apiEndpoint _ = _ |- _ => rewrite H
         | H : _ = HookReturns |- _ => rewrite H
         | H : _ = HookThrows |- _ => rewrite H
         | _ => progress (cbn [length Nat.eqb falsy negb]; tracker_fields)
         end.

Ltac flush_cases m :=
  destruct (Tracker.eventBuffer (Machine.self m)) as [|first others] eqn:Hbuffer;
  [| destruct (JsString.eqb (Config.mode (Tracker.config (Machine.self m)))
                            (lit "console")) eqn:Hconsole;
     [| destruct (Config.onFlush (Tracker.config (Machine.self m)))
          as [hook|] eqn:Hhook;
        [destruct (hook (first :: others)) eqn:Hresult|];
        destruct (Config.apiEndpoint (Tracker.config (Machine.self m)))
          as [[|c endpoint]|] eqn:Hendpoint ] ];
  unfold flush, sendEvents, requeue; run_monad; use_cases.

(** The steps of the life cycle. *)
Ltac lifecycle :=
  unfold enable, disable, cleanup, destroy, setupEventListeners, startFlushTimer;
  run_monad; tracker_fields.

(** ** Facts about strings *)

Section StringFacts.

Lemma startsWith_spec (s p : jsstring) :
  startsWith s p = true <-> exists post, s = p ++ post.
Proof.
  revert s; induction p as [|c p IH]; intros s; simpl.
  - split; [intros _; now exists s | reflexivity].
  - destruct s as [|d s].
    + split; [discriminate | intros [post H]; discriminate].
    + rewrite andb_true_iff, Ascii.eqb_eq, IH. split.
      * intros [-> [post ->]]. now exists post.
      * intros [post H]. injection H as -> ->. split; [reflexivity | now exists post].
Qed.

Lemma includes_spec (s w : jsstring) :
  includes s w = true <-> Substring w s.
Proof.
  unfold Substring. induction s as [|d s IH].
  - simpl. rewrite orb_false_r, startsWith_spec. split.
    + intros [post H]. now exists [], post.
    + intros [pre [post H]]. destruct pre; [now exists post | discriminate].
  - cbn [includes]. rewrite orb_true_iff, startsWith_spec, IH. split.
    + intros [[post H] | [pre [post H]]].
      * now exists [], post.
      * exists (d :: pre), post. now rewrite H.
    + intros [[|e pre] [post H]].
      * left. now exists post.
      * right. injection H as _ H. now exists pre, post.
Qed.

Lemma Substring_length (sub s : jsstring) :
  Substring sub s -> length sub <= length s.
Proof.
  intros [pre [post ->]]. rewrite !length_app. lia.
Qed.

Lemma digitChar_value (d : nat) :
  d < 10 -> nat_of_ascii (digitChar d) - 48 = d.
Proof.
  intros H. unfold digitChar. rewrite nat_ascii_embedding; lia.
Qed.

Lemma numberToString_aux_value (fuel : nat) :
  forall n acc, n < fuel ->
    fold_left digitStep (numberToString_aux fuel n acc) 0
    = fold_left digitStep acc n.
Proof.
  induction fuel as [|fuel IH]; intros n acc Hlt; [lia|].
  cbn [numberToString_aux].
  assert (Hmod : n mod 10 < 10) by (apply Nat.mod_upper_bound; lia).
  assert (Hdiv : n = 10 * (n / 10) + n mod 10) by (apply Nat.div_mod_eq).
  destruct (n / 10 =? 0) eqn:E.
  - apply Nat.eqb_eq in E. cbn [fold_left]. unfold digitStep at 2.
    rewrite digitChar_value by assumption. f_equal. lia.
  - apply Nat.eqb_neq in E. rewrite IH by lia.
    cbn [fold_left]. unfold digitStep at 2.
    rewrite digitChar_value by assumption. f_equal. lia.
Qed.

(** The decimal rendering can be read back: enough fuel was given. *)
Lemma digitsValue_numberToString (n : nat) :
  digitsValue (numberToString n) = n.
Proof.
  unfold digitsValue, numberToString.
  rewrite numberToString_aux_value by lia. reflexivity.
Qed.

Lemma numberToString_inj (n m : nat) :
  numberToString n = numberToString m -> n = m.
Proof.
  intros H. rewrite <- (digitsValue_numberToString n), H.
  apply digitsValue_numberToString.
Qed.

Lemma numberToString_aux_length_le (fuel : nat) :
  forall n acc k, 1 <= k -> n < 10 ^ k ->
    length (numberToString_aux fuel n acc) <= length acc + k.
Proof.
  induction fuel as [|fuel IH]; intros n acc k Hk Hn; cbn [numberToString_aux].
  - lia.
  - destruct (n / 10 =? 0) eqn:E.
    + cbn [length]. lia.
    + apply Nat.eqb_neq in E.
      destruct k as [|[|k]]; [lia| |].
      * exfalso. apply E. apply Nat.div_small. simpl in Hn. lia.
      * specialize (IH (n / 10) (digitChar (n mod 10) :: acc) (S k)).
        cbn [length] in IH.
        assert (n / 10 < 10 ^ S k).
        { apply Nat.Div0.div_lt_upper_bound.
          change (10 ^ S (S k)) with (10 * 10 ^ S k) in Hn. lia. }
        lia.
Qed.

Lemma numberToString_aux_length_ge (fuel : nat) :
  forall n acc, S (length acc) <= length (numberToString_aux (S fuel) n acc).
Proof.
  induction fuel as [|fuel IH]; intros n acc.
  - cbn [numberToString_aux]. destruct (n / 10 =? 0); cbn [length]; lia.
  - change (numberToString_aux (S (S fuel)) n acc)
      with (let acc' := digitChar (n mod 10) :: acc in
            if n / 10 =? 0 then acc'
            else numberToString_aux (S fuel) (n / 10) acc').
    cbn zeta. destruct (n / 10 =? 0); [cbn [length]; lia|].
    specialize (IH (n / 10) (digitChar (n mod 10) :: acc)).
    cbn [length] in IH. lia.
Qed.

Lemma numberToString_length_pos (n : nat) : 1 <= length (numberToString n).
Proof. apply (numberToString_aux_length_ge n n []). Qed.

Lemma pow10_gt (n : nat) : 2 <= n -> n + 20 < 10 ^ n.
Proof.
  induction n as [|n IH]; intros H; [lia|].
  destruct (Nat.eq_dec n 1) as [->|Hn]; [cbn; lia|].
  change (10 ^ S n) with (10 * 10 ^ n). lia.
Qed.

(** From 22 on, a length exceeds its decimal rendering by more than 19
    code units; from 16 on, by more than 13. *)
Lemma numberToString_length_short (n c : nat) :
  c <= 19 -> c + 3 <= n -> c + length (numberToString n) < n.
Proof.
  intros Hc H. unfold numberToString.
  pose proof (@numberToString_aux_length_le (S n) n [] (n - c - 1)) as L.
  cbn [length] in L.
  assert (n < 10 ^ (n - c - 1)).
  { pose proof (pow10_gt (n := n - c - 1)). lia. }
  lia.
Qed.

Lemma eqb_spec (s t : jsstring) : JsString.eqb s t = true <-> s = t.
Proof.
  unfold JsString.eqb. destruct (list_eq_dec ascii_dec s t); split; congruence.
Qed.

Lemma falsy_spec (s : jsstring) : falsy s = true <-> s = [].
Proof. destruct s; simpl; split; congruence. Qed.

Lemma toLowerCase_app (s t : jsstring) :
  toLowerCase (s ++ t) = toLowerCase s ++ toLowerCase t.
Proof. apply map_app. Qed.

Lemma includes_toLowerCase (name word : jsstring) :
  includes (toLowerCase name) word = true <-> containsIgnoringCase name word.
Proof.
  rewrite includes_spec. unfold Substring, containsIgnoringCase, toLowerCase.
  split.
  - intros [pre [post H]].
    apply map_eq_app in H. destruct H as [pre' [rest [-> [Hpre H]]]].
    apply map_eq_app in H. destruct H as [mid [post' [-> [Hmid Hpost]]]].
    now exists pre', mid, post'.
  - intros [pre [mid [post [-> H]]]].
    exists (map lowerUnit pre), (map lowerUnit post).
    now rewrite !map_app, H.
Qed.

End StringFacts.

(** ** The redactor: [sanitizeText] *)

Section Redactor.

Lemma sanitizeText_nonempty (text : jsstring) :
  text <> [] ->
  sanitizeText text =
    lit "[" ++ numberToString (length text) ++
    (if onlyDigits text then lit " digits]" else lit " characters]").
Proof.
  intros H. unfold sanitizeText.
  destruct text as [|c text]; [contradiction|].
  cbn [falsy]. now destruct (onlyDigits (c :: text)).
Qed.

Lemma sanitizeText_length (text : jsstring) :
  text <> [] ->
  length (sanitizeText text) =
    length (numberToString (length text)) + (if onlyDigits text then 9 else 13).
Proof.
  intros H. rewrite (sanitizeText_nonempty H).
  destruct (onlyDigits text); rewrite !length_app; cbn [lit list_ascii_of_string length]; lia.
Qed.

Lemma descriptor_not_digits (text : jsstring) :
  text <> [] -> onlyDigits (sanitizeText text) = false /\ sanitizeText text <> [].
Proof.
  intros H. rewrite (sanitizeText_nonempty H). split; [reflexivity | discriminate].
Qed.

(** C1, as the specification states it, fails: the one-digit text [1] is
    itself part of its descriptor [[1 digits]]. *)
Lemma sanitizeText_shares_substring :
  ~ (forall text sub : jsstring,
       sub <> [] -> Substring sub text -> ~ Substring sub (sanitizeText text)).
Proof.
  intros claim.
  apply (claim (lit "1") (lit "1")).
  - discriminate.
  - now exists [], [].
  - now exists (lit "["), (lit " digits]").
Qed.

(** C1 (amended): [sanitizeText] maps the empty text to the empty string, a
    text of decimal digits to [[n digits]] and any other text to
    [[n characters]], [n] being the text's length in decimal; and a text of
    more than 15 code units is longer than its descriptor, so that it never
    occurs in it. *)
Theorem sanitizeText_descriptor (text : jsstring) :
  (text = [] -> sanitizeText text = []) /\
  (text <> [] -> onlyDigits text = true ->
     sanitizeText text = lit "[" ++ numberToString (length text) ++ lit " digits]") /\
  (text <> [] -> onlyDigits text = false ->
     sanitizeText text = lit "[" ++ numberToString (length text) ++ lit " characters]") /\
  (15 < length text ->
     length (sanitizeText text) < length text /\
     ~ Substring text (sanitizeText text)).
Proof.
  repeat split.
  - now intros ->.
  - intros H D. rewrite (sanitizeText_nonempty H), D. reflexivity.
  - intros H D. rewrite (sanitizeText_nonempty H), D. reflexivity.
  - assert (text <> []) as N by (intros ->; cbn in H; lia).
    rewrite (sanitizeText_length N).
    pose proof (@numberToString_length_short (length text) 13).
    destruct (onlyDigits text); lia.
  - intros Hsub. apply Substring_length in Hsub.
    assert (text <> []) as N by (intros ->; cbn in H; lia).
    rewrite (sanitizeText_length N) in Hsub.
    pose proof (@numberToString_length_short (length text) 13).
    destruct (onlyDigits text); lia.
Qed.

(** The descriptor of [src/index.js] has the same shape under another
    wording; there a text of more than 21 code units is longer than its
    descriptor. *)
Lemma standalone_descriptor (text : jsstring) :
  (text = [] -> Standalone.sanitizeText text = []) /\
  (text <> [] ->
     Standalone.sanitizeText text =
       lit "Typed [" ++ numberToString (length text) ++
       (if onlyDigits text then lit "] digits" else lit "] characters")) /\
  (21 < length text -> ~ Substring text (Standalone.sanitizeText text)).
Proof.
  assert (E : text <> [] ->
     Standalone.sanitizeText text =
       lit "Typed [" ++ numberToString (length text) ++
       (if onlyDigits text then lit "] digits" else lit "] characters")).
  { intros H. unfold Standalone.sanitizeText.
    destruct text as [|c text]; [contradiction|].
    cbn [falsy]. now destruct (onlyDigits (c :: text)). }
  repeat split; [now intros -> | exact E |].
  intros H Hsub. apply Substring_length in Hsub.
  assert (text <> []) as N by (intros ->; cbn in H; lia).
  rewrite (E N), !length_app in Hsub.
  pose proof (@numberToString_length_short (length text) 19).
  destruct (onlyDigits text); cbn [lit list_ascii_of_string length] in Hsub; lia.
Qed.

(** C8, as the specification states it, fails: the descriptor of [a] is
    [[1 characters]], and the descriptor of that is [[14 characters]]. *)
Lemma sanitizeText_not_idempotent :
  ~ (forall s : jsstring, sanitizeText (sanitizeText s) = sanitizeText s).
Proof.
  intros claim. specialize (claim (lit "a")). discriminate claim.
Qed.

Lemma tags_differ (a b : jsstring) :
  a ++ lit " digits]" <> b ++ lit " characters]".
Proof.
  intros H. apply (f_equal (@rev ascii)) in H.
  rewrite !rev_app_distr in H. discriminate H.
Qed.

(** C8 (amended): the descriptor of a descriptor is the [characters]
    descriptor of the first one's length; it is the first descriptor again
    exactly when the text is empty or is a text of 15 code units that are
    not all digits, whose descriptor [[15 characters]] describes itself. *)
Theorem sanitizeText_twice (s : jsstring) :
  (s <> [] ->
     sanitizeText (sanitizeText s) =
       lit "[" ++ numberToString (length (sanitizeText s)) ++ lit " characters]") /\
  (sanitizeText (sanitizeText s) = sanitizeText s <->
     s = [] \/ (length s = 15 /\ onlyDigits s = false)).
Proof.
  assert (T : s <> [] ->
     sanitizeText (sanitizeText s) =
       lit "[" ++ numberToString (length (sanitizeText s)) ++ lit " characters]").
  { intros N. destruct (descriptor_not_digits N) as [D E].
    rewrite (sanitizeText_nonempty E), D. reflexivity. }
  split; [exact T|].
  destruct s as [|c s]; [split; [now left | reflexivity]|].
  set (text := c :: s) in *.
  assert (N : text <> []) by discriminate.
  rewrite (T N), (sanitizeText_length N).
  rewrite (sanitizeText_nonempty N).
  split.
  - intros H. right.
    apply app_inv_head in H.
    destruct (onlyDigits text) eqn:D.
    + symmetry in H. now apply tags_differ in H.
    + apply app_inv_tail, numberToString_inj in H.
      split; [|reflexivity].
      pose proof (numberToString_length_pos (length text)) as P.
      pose proof (@numberToString_length_short (length text) 13) as Sh.
      destruct (le_lt_dec 16 (length text)) as [G|G]; [lia|].
      destruct (Nat.eq_dec (length text) 14) as [E14|E14].
      { rewrite E14 in H. cbn in H. lia. }
      destruct (Nat.eq_dec (length text) 15) as [E15|E15]; [assumption|].
      lia.
  - intros [Hnil | [L D]]; [discriminate|].
    rewrite D, L. reflexivity.
Qed.

(** C9: the descriptor depends on the text through its length and through
    whether it is all digits, and on nothing else. *)
Theorem sanitizeText_length_and_digits_only (s t : jsstring) :
  s <> [] -> t <> [] ->
  length s = length t ->
  onlyDigits s = onlyDigits t ->
  sanitizeText s = sanitizeText t.
Proof.
  intros Hs Ht L D.
  rewrite (sanitizeText_nonempty Hs), (sanitizeText_nonempty Ht), L, D.
  reflexivity.
Qed.

Lemma sanitizeText_length_and_digits_only_witness :
  (lit "4111" <> [] /\ lit "9023" <> [] /\
   length (lit "4111") = length (lit "9023") /\
   onlyDigits (lit "4111") = onlyDigits (lit "9023")) /\
  sanitizeText (lit "4111") = sanitizeText (lit "9023").
Proof.
  split.
  - repeat split; discriminate.
  - apply (@sanitizeText_length_and_digits_only (lit "4111") (lit "9023"));
      [discriminate | discriminate | reflexivity | reflexivity].
Defined.

End Redactor.

(** ** The redactor: [isSensitiveField] *)

Section Classifier.

Lemma vocabulary_words_nonempty (w : jsstring) : In w vocabulary -> w <> [].
Proof.
  unfold vocabulary. cbn [In].
  intros [<-|[<-|[<-|[<-|[<-|[<-|[]]]]]]]; discriminate.
Qed.

Lemma empty_contains_no_word (w : jsstring) :
  In w vocabulary -> ~ containsIgnoringCase [] w.
Proof.
  intros Hin [pre [mid [post [E L]]]].
  symmetry in E. apply app_eq_nil in E. destruct E as [_ E].
  apply app_eq_nil in E. destruct E as [-> _].
  apply (vocabulary_words_nonempty Hin). now rewrite <- L.
Qed.

Lemma includes_vocabulary (name : jsstring) :
  includes name (lit "card") || includes name (lit "cvv") ||
  includes name (lit "password") || includes name (lit "ssn") ||
  includes name (lit "secret") || includes name (lit "token") = true
  <-> exists w, In w vocabulary /\ includes name w = true.
Proof.
  rewrite !orb_true_iff. unfold vocabulary. cbn [In]. split.
  - intros [[[[[H|H]|H]|H]|H]|H]; eexists; (split; [|exact H]); tauto.
  - intros [w [[<-|[<-|[<-|[<-|[<-|[<-|[]]]]]]] H]]; tauto.
Qed.

(** C3, as the specification states it, fails: a type attribute in capitals
    does not equal [password], yet the target is classified as sensitive. *)
Lemma isSensitiveField_ignores_type_case :
  ~ (forall el, isSensitiveField el = true <-> SensitiveAsSpecified el).
Proof.
  intros claim.
  destruct (claim (Some Sample.capitalPassword)) as [sensitive _].
  destruct (sensitive eq_refl) as [e [E H]].
  injection E as <-. cbn in H.
  destruct H as [H|[H|[[w [Hin H]]|H]]]; try discriminate.
  exact (empty_contains_no_word Hin H).
Qed.

(** C3 (amended): an absent target is not sensitive, and a target is
    sensitive exactly when its type attribute, lower-cased, equals
    [password] or [hidden], or its name contains one of the six vocabulary
    words when case is ignored, or its autocomplete attribute, lower-cased,
    starts with [cc-]. *)
Theorem isSensitiveField_spec :
  isSensitiveField None = false /\
  forall el, isSensitiveField el = true <-> SensitiveIgnoringCase el.
Proof.
  split; [reflexivity|].
  intros [e|]; unfold SensitiveIgnoringCase.
  2:{ split; [discriminate | intros [e [E _]]; discriminate]. }
  assert (V : forall name,
             (exists w, In w vocabulary /\ includes (toLowerCase name) w = true)
             <-> (exists w, In w vocabulary /\ containsIgnoringCase name w)).
  { intros name; split; intros [w [Hin H]]; exists w; (split; [exact Hin|]);
      now apply includes_toLowerCase. }
  assert (C : isSensitiveField (Some e) = true <->
              toLowerCase (orEmpty (Element.type e)) = lit "password" \/
              toLowerCase (orEmpty (Element.type e)) = lit "hidden" \/
              (exists w, In w vocabulary /\
                         containsIgnoringCase (orEmpty (Element.name e)) w) \/
              startsWith (toLowerCase (orEmpty (Element.autocomplete e))) (lit "cc-")
              = true).
  { rewrite <- V, <- includes_vocabulary, <- !eqb_spec.
    cbn [isSensitiveField]. rewrite !orb_true_iff. tauto. }
  rewrite C. split.
  - intros H. exists e. now split.
  - intros [e' [E H]]. injection E as <-. exact H.
Qed.

(** The stand-alone classifier knows four of the six words: a field named
    [token] passes it. *)
Lemma standalone_misses_token :
  Standalone.isSensitiveField
    (Some (Element.make (lit "INPUT") (Some (lit "text")) (Some (lit "token")) None))
  = false /\
  isSensitiveField
    (Some (Element.make (lit "INPUT") (Some (lit "text")) (Some (lit "token")) None))
  = true.
Proof. split; reflexivity. Qed.

End Classifier.

(** ** The methods *)

Section Methods.

Local Open Scope method_scope.

(** *** Construction *)

Lemma enable_keeps_config (env : Env.t) (m : Machine.t) :
  fst (enable env m) = inr tt /\
  configOf (snd (enable env m)) = configOf m.
Proof.
  unfold enable, setupEventListeners, startFlushTimer, configOf.
  run_monad.
  destruct (Tracker.isTrackingEnabled (Machine.self m)); [now split|].
  tracker_fields.
  destruct (negb (JsString.eqb (Config.mode (Tracker.config (Machine.self m)))
                               (lit "console"))); now split.
Qed.

Lemma init_keeps_config (env : Env.t) (consent : ConsentResult) (m : Machine.t) :
  fst (init env consent m) = inr tt /\
  configOf (snd (init env consent m)) = configOf m.
Proof.
  destruct (enable_keeps_config env m) as [E1 E2].
  unfold init, callConsentCheck. run_monad.
  destruct (JsString.eqb (Config.mode (Tracker.config (Machine.self m)))
                         (lit "console")).
  - destruct (enable env m) as [[e|[]] m'] eqn:E; cbn in *; try discriminate.
    now split.
  - destruct (match Config.consentCheck (Tracker.config (Machine.self m)) with
              | Some f => f tt
              | None => consent
              end); cbn beta iota.
    + destruct (enable env m) as [[e|[]] m'] eqn:E; cbn in *; try discriminate.
      now split.
    + now split.
    + now split.
Qed.

(** C7, as the specification states it, fails: a capacity of zero is
    accepted, and the constructor returns normally. *)
Lemma constructor_accepts_zero_capacity :
  ~ (forall options env consent,
       (exists z, Options.bufferSize options = Some z /\ ~ validSetting z) \/
       (exists z, Options.flushInterval options = Some z /\ ~ validSetting z) ->
       exists e, fst (constructor options env consent) = inl e).
Proof.
  intros claim.
  destruct (claim Sample.zeroCapacity (Sample.env 0) ConsentGiven) as [e H].
  - left. exists 0%Z. split; [reflexivity | unfold validSetting; lia].
  - discriminate H.
Qed.

(** C7 (amended): the constructor checks neither setting.  For every
    [options] it returns without raising, and the instance holds the
    [bufferSize] and [flushInterval] that were given, whatever their sign,
    or the defaults 20 and 5000 when the key is absent. *)
Theorem constructor_keeps_settings
    (options : Options.t) (env : Env.t) (consent : ConsentResult) :
  let built := constructor options env consent in
  fst built = inr tt /\
  Config.bufferSize (configOf (snd built)) = keyOr (Options.bufferSize options) 20%Z /\
  Config.flushInterval (configOf (snd built))
    = keyOr (Options.flushInterval options) 5000%Z.
Proof.
  cbn zeta. unfold constructor.
  match goal with |- context [init env consent ?m] =>
    destruct (init_keeps_config env consent m) as [R C]; rewrite R, C end.
  repeat split.
Qed.

(** *** Console mode *)

(** C10: in console mode no endpoint is resolved, and [flush] leaves the
    buffer empty without calling [onFlush] or posting a request: its only
    effect is its own entry, nothing is left in flight, and so nothing can
    be put back later. *)
Theorem console_flush_discards (m : Machine.t) :
  Config.mode (configOf m) = lit "console" ->
  getEndpoint (configOf m) = None /\
  fst (flush m) = inr tt /\
  bufferOf (snd (flush m)) = [] /\
  Machine.inflight (snd (flush m)) = Machine.inflight m /\
  Machine.trace (snd (flush m)) = Machine.trace m ++ [FlushCalled].
Proof.
  unfold configOf, bufferOf. intros Hmode.
  split; [unfold getEndpoint; now rewrite Hmode|].
  unfold flush. run_monad. tracker_fields. rewrite Hmode.
  destruct (Tracker.eventBuffer (Machine.self m)) as [|ev buffer] eqn:B.
  - cbn. now rewrite B.
  - cbn. repeat split.
Qed.

Lemma console_flush_discards_witness :
  Config.mode (configOf (pushed (eventOf (Machine.self Sample.console) (Sample.click "BUTTON")) Sample.console))
  = lit "console" /\
  bufferOf (snd (flush (pushed (eventOf (Machine.self Sample.console) (Sample.click "BUTTON")) Sample.console))) = [].
Proof.
  split; [reflexivity|].
  apply (@console_flush_discards
           (pushed (eventOf (Machine.self Sample.console) (Sample.click "BUTTON"))
                   Sample.console)).
  reflexivity.
Defined.

(** *** [flush], [track] and the event loop *)

Lemma lookupRequest_app (id : nat) (l l' : list (nat * list Event.t)) :
  Forall (fun request => fst request <> id) l' ->
  lookupRequest id (l ++ l') = lookupRequest id l.
Proof.
  intros H. induction l as [|[i b] l IH]; cbn.
  - induction H as [|[i b] l' Hi _ IH']; cbn; [reflexivity|].
    cbn in Hi. apply Nat.eqb_neq in Hi. now rewrite Hi.
  - now rewrite IH.
Qed.

Lemma lookupRequest_fresh (id : nat) (l : list (nat * list Event.t)) :
  Forall (fun request => fst request < id) l -> lookupRequest id l = None.
Proof.
  induction 1 as [|[i b] l Hi _ IH]; cbn; [reflexivity|].
  cbn in Hi. assert (E : Nat.eqb i id = false) by (apply Nat.eqb_neq; lia).
  now rewrite E.
Qed.

Lemma lookupRequest_remove (id other : nat) (l : list (nat * list Event.t)) :
  other <> id ->
  lookupRequest id (removeRequest other l) = lookupRequest id l.
Proof.
  intros H. induction l as [|[i b] l IH]; cbn; [reflexivity|].
  destruct (Nat.eqb i other) eqn:E1.
  - apply Nat.eqb_eq in E1. subst i.
    apply Nat.eqb_neq in H. now rewrite H.
  - cbn. now rewrite IH.
Qed.

Lemma removeRequest_Forall (P : nat * list Event.t -> Prop) (id : nat)
    (l : list (nat * list Event.t)) :
  Forall P l -> Forall P (removeRequest id l).
Proof.
  induction 1 as [|[i b] l Hi Hl IH]; cbn; [constructor|].
  destruct (Nat.eqb i id); [assumption | now constructor].
Qed.

Lemma preserved_refl (id : nat) (m : Machine.t) : preserved id m m.
Proof. constructor; auto. Qed.

Lemma preserved_trans (id : nat) (a b c : Machine.t) :
  preserved id a b -> preserved id b c -> preserved id a c.
Proof.
  intros [C1 E1 S1 G1 R1 W1] [C2 E2 S2 G2 R2 W2].
  constructor; try congruence; try lia; auto.
  intros H. rewrite R2 by lia. now apply R1.
Qed.

Lemma flush_returns (m : Machine.t) : fst (flush m) = inr tt.
Proof. flush_cases m; reflexivity. Qed.

Lemma flush_preserved (id : nat) (m : Machine.t) :
  preserved id m (snd (flush m)).
Proof.
  flush_cases m; constructor; unfold configOf, wellFormed; tracker_fields;
    try reflexivity; try lia; auto.
  all: try (intros Hid; apply lookupRequest_app; constructor;
            [cbn; lia | constructor]).
  all: intros W; apply Forall_app; split;
    [ eapply Forall_impl; [|exact W]; cbn; intros; lia
    | constructor; [cbn; lia | constructor] ].
Qed.

Lemma flush_counts_once (m : Machine.t) :
  flushCalls (snd (flush m)) = S (flushCalls m).
Proof.
  unfold flushCalls.
  flush_cases m; rewrite ?filter_app, ?length_app; cbn; lia.
Qed.

Lemma flushSettled_returns (id : nat) (outcome : FetchOutcome) (m : Machine.t) :
  fst (flushSettled id outcome m) = inr tt.
Proof.
  unfold flushSettled, resume, sendEventsSettled, requeue. run_monad.
  destruct (lookupRequest id (Machine.inflight m)); [|reflexivity].
  destruct outcome as [|[|] [|]]; reflexivity.
Qed.

Lemma flushSettled_preserved (id other : nat) (outcome : FetchOutcome)
    (m : Machine.t) :
  other <> id ->
  preserved id m (snd (flushSettled other outcome m)).
Proof.
  intros Hne.
  unfold flushSettled, resume, sendEventsSettled, requeue. run_monad.
  destruct (lookupRequest other (Machine.inflight m)) as [batch|];
    [destruct outcome as [|[|] [|]]|]; tracker_fields.
  all: constructor; unfold configOf, wellFormed; tracker_fields;
    try reflexivity; try lia;
    try (intros W; now apply removeRequest_Forall).
  all: intros _; now apply lookupRequest_remove.
Qed.

(** [track] on an enabled instance: the push, then at most one [flush]. *)
Lemma track_enabled (env : Env.t) (type : jsstring) (data : Event.payload)
    (m : Machine.t) :
  Tracker.isTrackingEnabled (Machine.self m) = true ->
  let appended := pushed (eventOf (Machine.self m) (env, type, data)) m in
  track env type data m =
    (inr tt,
     if (Config.bufferSize (configOf m) <=? Z.of_nat (length (bufferOf appended)))%Z
     then snd (flush appended)
     else appended).
Proof.
  intros Henabled. cbn zeta.
  unfold track, pushed, eventOf, bufferOf, configOf. run_monad.
  rewrite Henabled. cbn [negb]. tracker_fields.
  destruct (Config.bufferSize (Tracker.config (Machine.self m)) <=?
            Z.of_nat (length (Tracker.eventBuffer (Machine.self m) ++
              [Event.make type (Env.now env) data
                 (Tracker.sessionId (Machine.self m)) (Env.href env)
                 (Env.userAgent env)])))%Z; reflexivity.
Qed.

Lemma track_disabled (env : Env.t) (type : jsstring) (data : Event.payload)
    (m : Machine.t) :
  Tracker.isTrackingEnabled (Machine.self m) = false ->
  track env type data m = (inr tt, m).
Proof.
  intros Hdisabled. unfold track. run_monad. now rewrite Hdisabled.
Qed.

Lemma pushed_preserved (id : nat) (event : Event.t) (m : Machine.t) :
  preserved id m (pushed event m).
Proof. constructor; auto. Qed.

Lemma track_preserved (id : nat) (env : Env.t) (type : jsstring)
    (data : Event.payload) (m : Machine.t) :
  preserved id m (snd (track env type data m)).
Proof.
  destruct (Tracker.isTrackingEnabled (Machine.self m)) eqn:E.
  - rewrite (track_enabled env type data m E). cbn [snd].
    match goal with |- context [if ?b then _ else _] => destruct b end.
    + eapply preserved_trans; [apply pushed_preserved | apply flush_preserved].
    + apply pushed_preserved.
  - rewrite (track_disabled env type data m E). apply preserved_refl.
Qed.

Lemma step_preserved (id : nat) (a : Action) (m : Machine.t) :
  settles id a = false ->
  fst (step a m) = inr tt /\ preserved id m (snd (step a m)).
Proof.
  destruct a as [env type data| |other outcome]; cbn [settles step]; intros H.
  - split; [|apply track_preserved].
    destruct (Tracker.isTrackingEnabled (Machine.self m)) eqn:E.
    + now rewrite (track_enabled env type data m E).
    + now rewrite (track_disabled env type data m E).
  - split; [reflexivity | apply flush_preserved].
  - split; [reflexivity|].
    apply flushSettled_preserved. apply Nat.eqb_neq in H. exact H.
Qed.

Lemma run_preserved (id : nat) (actions : list Action) :
  forall m, forallb (fun a => negb (settles id a)) actions = true ->
    fst (run actions m) = inr tt /\ preserved id m (snd (run actions m)).
Proof.
  induction actions as [|a rest IH]; intros m H.
  - split; [reflexivity | apply preserved_refl].
  - cbn [forallb] in H. apply andb_true_iff in H. destruct H as [Ha Hrest].
    apply negb_true_iff in Ha.
    destruct (step_preserved id a m Ha) as [R P].
    cbn [run]. unfold bind.
    destruct (step a m) as [[e|[]] m1]; cbn [fst snd] in *; [discriminate|].
    destruct (IH m1 Hrest) as [R' P'].
    split; [exact R' | eapply preserved_trans; eassumption].
Qed.

(** Calls of [track] that stay below the capacity only append. *)
Lemma run_tracks_below_capacity (calls : list (Env.t * jsstring * Event.payload)) :
  forall m,
    Tracker.isTrackingEnabled (Machine.self m) = true ->
    (Z.of_nat (length (bufferOf m) + length calls)
       < Config.bufferSize (configOf m))%Z ->
    bufferOf (snd (run (map trackAction calls) m))
    = bufferOf m ++ map (eventOf (Machine.self m)) calls.
Proof.
  induction calls as [|[[env type] data] calls IH]; intros m E B.
  - cbn. now rewrite app_nil_r.
  - cbn [map trackAction run step]. unfold bind.
    rewrite (track_enabled env type data m E).
    set (appended := pushed _ m).
    assert (L : length (bufferOf appended) = S (length (bufferOf m))).
    { unfold appended, pushed, bufferOf. tracker_fields.
      rewrite length_app. cbn. lia. }
    cbn [length] in B.
    destruct (Config.bufferSize (configOf m) <=? Z.of_nat (length (bufferOf appended)))%Z
      eqn:Full; [apply Z.leb_le in Full; lia|].
    rewrite IH.
    + unfold appended, pushed, bufferOf. tracker_fields.
      now rewrite <- app_assoc.
    + exact E.
    + rewrite L. unfold appended, pushed, configOf in *. tracker_fields. lia.
Qed.

(** C5: on an enabled instance [track] puts the event at the tail of the
    buffer, and calls [flush] exactly when the buffer then holds
    [bufferSize] events or more: the call enters [flush] once in that case
    and not at all otherwise. *)
Theorem track_appends_and_flushes_once
    (env : Env.t) (type : jsstring) (data : Event.payload) (m : Machine.t) :
  Tracker.isTrackingEnabled (Machine.self m) = true ->
  let event := Event.make type (Env.now env) data
                 (Tracker.sessionId (Machine.self m)) (Env.href env)
                 (Env.userAgent env) in
  let appended := pushed event m in
  let full := (Config.bufferSize (configOf m)
                 <=? Z.of_nat (length (bufferOf m ++ [event])))%Z in
  bufferOf appended = bufferOf m ++ [event] /\
  track env type data m
    = (inr tt, if full then snd (flush appended) else appended) /\
  flushCalls (snd (track env type data m))
    = flushCalls m + (if full then 1 else 0).
Proof.
  intros E. cbn zeta.
  split; [reflexivity|].
  pose proof (track_enabled env type data m E) as T. cbn zeta in T.
  change (eventOf (Machine.self m) (env, type, data))
    with (Event.make type (Env.now env) data
            (Tracker.sessionId (Machine.self m)) (Env.href env)
            (Env.userAgent env)) in T.
  set (event := Event.make _ _ _ _ _ _) in *.
  change (bufferOf (pushed event m)) with (bufferOf m ++ [event]) in T.
  rewrite T. split; [reflexivity|]. cbn [snd].
  destruct (Config.bufferSize (configOf m) <=? _)%Z.
  - rewrite flush_counts_once. unfold flushCalls, pushed. tracker_fields. lia.
  - unfold flushCalls, pushed. tracker_fields. lia.
Qed.

Lemma track_appends_and_flushes_once_witness :
  Tracker.isTrackingEnabled (Machine.self Sample.twoClicks) = true /\
  flushCalls (snd (track (Sample.env 9) (lit "mouse")
                         (snd (Sample.click "C")) Sample.twoClicks))
  = flushCalls Sample.twoClicks + 1.
Proof.
  split; [reflexivity|].
  pose proof (@track_appends_and_flushes_once (Sample.env 9) (lit "mouse")
                (snd (Sample.click "C")) Sample.twoClicks eq_refl) as P.
  cbn zeta in P. destruct P as [_ [_ P]]. exact P.
Defined.

(** *** Failed deliveries *)

Lemma lookupRequest_newest (id : nat) (batch : list Event.t)
    (l : list (nat * list Event.t)) :
  Forall (fun request => fst request < id) l ->
  lookupRequest id (l ++ [(id, batch)]) = Some batch.
Proof.
  induction 1 as [|[i b] l Hi _ IH]; cbn.
  - now rewrite Nat.eqb_refl.
  - cbn in Hi. assert (E : Nat.eqb i id = false) by (apply Nat.eqb_neq; lia).
    now rewrite E.
Qed.

Lemma flushSettled_failure (id : nat) (outcome : FetchOutcome)
    (batch : list Event.t) (m : Machine.t) :
  lookupRequest id (Machine.inflight m) = Some batch ->
  sendFails outcome = true ->
  bufferOf (snd (flushSettled id outcome m)) = batch ++ bufferOf m.
Proof.
  intros L F.
  unfold flushSettled, resume, sendEventsSettled, requeue, bufferOf. run_monad.
  rewrite L.
  destruct outcome as [|[|] [|]]; try discriminate F; reflexivity.
Qed.

Lemma flushSettled_success (id : nat) (outcome : FetchOutcome) (m : Machine.t) :
  sendFails outcome = false ->
  bufferOf (snd (flushSettled id outcome m)) = bufferOf m.
Proof.
  intros F.
  unfold flushSettled, resume, sendEventsSettled, requeue, bufferOf. run_monad.
  destruct (lookupRequest id (Machine.inflight m)); [|reflexivity].
  destruct outcome as [|[|] [|]]; try discriminate F; reflexivity.
Qed.

Lemma eventOf_session (k k' : Tracker.t) (call : Env.t * jsstring * Event.payload) :
  Tracker.sessionId k = Tracker.sessionId k' -> eventOf k call = eventOf k' call.
Proof. destruct call as [[env type] data]. cbn. now intros ->. Qed.

Lemma trackAction_never_settles (id : nat)
    (calls : list (Env.t * jsstring * Event.payload)) :
  forallb (fun a => negb (settles id a)) (map trackAction calls) = true.
Proof.
  induction calls as [|[[env type] data] calls IH]; [reflexivity | exact IH].
Qed.

(** [flush] when the hook throws: the batch is back at once. *)
Lemma flush_hook_throws (m : Machine.t) :
  JsString.eqb (Config.mode (configOf m)) (lit "console") = false ->
  hookThrows (configOf m) (bufferOf m) = true ->
  bufferOf (snd (flush m)) = bufferOf m /\
  Machine.inflight (snd (flush m)) = Machine.inflight m /\
  filter isFetchPosted (Machine.trace (snd (flush m)))
  = filter isFetchPosted (Machine.trace m).
Proof.
  unfold configOf, bufferOf, hookThrows. intros Hmode Hthrows.
  flush_cases m; try congruence;
    rewrite ?Hhook, ?Hresult in Hthrows; try discriminate Hthrows.
  all: rewrite ?app_nil_r, ?filter_app; cbn [filter isFetchPosted];
       rewrite ?app_nil_r; repeat split.
Qed.

(** [flush] when the hook passes and an endpoint is set: the batch is
    parked with the request. *)
Lemma flush_posts (m : Machine.t) :
  wellFormed m ->
  bufferOf m <> [] ->
  JsString.eqb (Config.mode (configOf m)) (lit "console") = false ->
  hookThrows (configOf m) (bufferOf m) = false ->
  truthyString (Config.apiEndpoint (configOf m)) = true ->
  bufferOf (snd (flush m)) = [] /\
  Machine.nextRequest m < Machine.nextRequest (snd (flush m)) /\
  lookupRequest (Machine.nextRequest m) (Machine.inflight (snd (flush m)))
  = Some (bufferOf m).
Proof.
  unfold configOf, bufferOf, hookThrows, truthyString.
  intros W Hne Hmode Hpasses Htruthy.
  flush_cases m; try congruence;
    rewrite ?Hhook, ?Hresult in Hpasses; try discriminate Hpasses;
    try discriminate Htruthy.
  all: repeat split; try lia; now apply lookupRequest_newest.
Qed.

(** C4: outside console mode, whatever makes a flush of a non-empty batch
    fail puts the whole batch back at the front of the buffer, in its
    order, and nothing is thrown to the caller.  A throwing [onFlush]
    restores the batch before anything is posted.  A request that fails
    (rejected, not [ok], or with an unreadable body) restores it in front of
    whatever the buffer holds when the request settles, whatever happened
    on the event loop in between; when that was [track] calls that stayed
    below the capacity, the buffer is the batch followed by their events. *)
Theorem flush_failure_requeues (m : Machine.t) (batch : list Event.t) :
  wellFormed m ->
  bufferOf m = batch ->
  batch <> [] ->
  JsString.eqb (Config.mode (configOf m)) (lit "console") = false ->
  let started := snd (flush m) in
  let id := Machine.nextRequest m in
  fst (flush m) = inr tt /\
  (hookThrows (configOf m) batch = true ->
     bufferOf started = batch /\
     Machine.inflight started = Machine.inflight m /\
     filter isFetchPosted (Machine.trace started)
     = filter isFetchPosted (Machine.trace m)) /\
  (hookThrows (configOf m) batch = false ->
   truthyString (Config.apiEndpoint (configOf m)) = true ->
     bufferOf started = [] /\
     (forall during outcome,
        forallb (fun a => negb (settles id a)) during = true ->
        sendFails outcome = true ->
        let before := snd (run during started) in
        fst (flushSettled id outcome before) = inr tt /\
        bufferOf (snd (flushSettled id outcome before)) = batch ++ bufferOf before) /\
     (forall calls outcome,
        Tracker.isTrackingEnabled (Machine.self m) = true ->
        (Z.of_nat (length calls) < Config.bufferSize (configOf m))%Z ->
        sendFails outcome = true ->
        bufferOf (snd (flushSettled id outcome
                         (snd (run (map trackAction calls) started))))
        = batch ++ map (eventOf (Machine.self m)) calls)).
Proof.
  intros W Hbatch Hne Hmode. cbn zeta.
  split; [apply flush_returns|].
  subst batch. split; [now apply flush_hook_throws|].
  intros Hpasses Hendpoint.
  destruct (flush_posts W Hne Hmode Hpasses Hendpoint) as [Hempty [Hnext Hparked]].
  assert (Settled : forall during outcome,
            forallb (fun a => negb (settles (Machine.nextRequest m) a)) during = true ->
            sendFails outcome = true ->
            bufferOf (snd (flushSettled (Machine.nextRequest m) outcome
                             (snd (run during (snd (flush m))))))
            = bufferOf m ++ bufferOf (snd (run during (snd (flush m))))).
  { intros during outcome Hduring Hfails.
    destruct (run_preserved (Machine.nextRequest m) during (snd (flush m)) Hduring)
      as [_ P].
    apply flushSettled_failure; [|exact Hfails].
    rewrite (keeps_request P) by exact Hnext. exact Hparked. }
  split; [exact Hempty|]. split.
  - intros during outcome Hduring Hfails. cbn zeta.
    split; [apply flushSettled_returns | now apply Settled].
  - intros calls outcome Henabled Hcapacity Hfails.
    rewrite Settled; [|apply trackAction_never_settles | exact Hfails].
    pose proof (flush_preserved 0 m) as P.
    rewrite run_tracks_below_capacity.
    + rewrite Hempty. cbn [app]. f_equal.
      apply map_ext. intros call. apply eventOf_session. apply (keeps_session P).
    + rewrite (keeps_enabled P). exact Henabled.
    + rewrite Hempty, (keeps_config P). cbn [length]. lia.
Qed.

Lemma flush_failure_requeues_witness :
  (wellFormed Sample.loaded /\
   bufferOf Sample.loaded = Sample.abc /\
   Sample.abc <> [] /\
   JsString.eqb (Config.mode (configOf Sample.loaded)) (lit "console") = false /\
   hookThrows (configOf Sample.loaded) Sample.abc = false /\
   truthyString (Config.apiEndpoint (configOf Sample.loaded)) = true /\
   Tracker.isTrackingEnabled (Machine.self Sample.loaded) = true /\
   (Z.of_nat (length Sample.de) < Config.bufferSize (configOf Sample.loaded))%Z /\
   sendFails (Responded false true) = true) /\
  bufferOf (snd (flushSettled (Machine.nextRequest Sample.loaded)
                   (Responded false true)
                   (snd (run (map trackAction Sample.de)
                             (snd (flush Sample.loaded))))))
  = Sample.abc ++ map (eventOf (Machine.self Sample.loaded)) Sample.de.
Proof.
  assert (W : wellFormed Sample.loaded) by apply Forall_nil.
  assert (N : Sample.abc <> []) by discriminate.
  split.
  - repeat split; try reflexivity; assumption.
  - pose proof (@flush_failure_requeues Sample.loaded Sample.abc
                  W eq_refl N eq_refl) as P.
    cbn zeta in P. destruct P as [_ [_ P]].
    destruct (P eq_refl eq_refl) as [_ [_ Q]].
    apply Q; reflexivity.
Defined.

(** *** The scroll handler *)

(** C2 at its failing input: on a page as tall as its viewport the handler
    divides zero by zero, and the event it tracks carries NaN as its
    percentage, not 0.  With an offset above zero the same page gives
    Infinity, and a page shorter than its viewport a negative percentage. *)
Lemma scrollHandler_unscrollable_page :
  PrimFloat.eqb (Scroll.maxScrollTop Sample.unscrollable) 0 = true /\
  PrimFloat.is_nan (Scroll.scrollPercentage Sample.unscrollable) = true /\
  JsNumber.strictEq (Scroll.scrollPercentage Sample.unscrollable) 0 = false /\
  map Event.data
      (bufferOf (snd (scrollHandler (Sample.env 0) Sample.unscrollable Sample.hosted)))
  = [Event.Scroll 0 0 PrimFloat.nan] /\
  Scroll.scrollPercentage Sample.overscrolled = PrimFloat.infinity /\
  PrimFloat.ltb (Scroll.maxScrollTop Sample.shortPage) 0 = true /\
  Scroll.scrollPercentage Sample.shortPage = (-25)%float.
Proof. repeat split. Qed.

End Methods.

(** ** [debounce] *)

Section DebounceFacts.

Import Debounce.

Variable A : Type.

Lemma last_cons (X : Type) (l : list X) (c x : X) :
  last (c :: l) x = last l c.
Proof.
  revert c x. induction l as [|c' l IH]; intros c x; [reflexivity|].
  change (last (c :: c' :: l) x) with (last (c' :: l) x).
  rewrite (IH c' x). symmetry. apply IH.
Qed.

Lemma call_arms_one (now : Z) (a : A) (s : debounced * loop A) :
  tidy s ->
  let s' := call now a (fst s, advance now (snd s)) in
  delay (fst s') = delay (fst s) /\
  exists handle,
    pending (snd s') = [mkTimer handle (now + delay (fst s)) a] /\
    timeout (fst s') = Some handle.
Proof.
  destruct s as [[d handle] [next queue sent]]. unfold tidy.
  cbn [fst snd pending timeout delay].
  intros [-> | [t [-> ->]]]; cbn zeta;
    unfold call, advance, clearTimeout, setTimeout;
    cbn [fst snd pending emitted nextId timeout delay filter].
  - split; [reflexivity|]. exists next.
    destruct handle; cbn [pending nextId emitted filter app fst snd timeout];
      split; reflexivity.
  - split; [reflexivity|]. exists next.
    destruct (due t <=? now)%Z;
      cbn [negb filter pending nextId emitted app fst snd timeout];
      rewrite ?Nat.eqb_refl; cbn [negb app]; split; reflexivity.
Qed.

Lemma runCalls_armed (d : Z) (calls : list (Z * A)) :
  forall (l : loop A) (handle : nat) (t0 : Z) (a0 : A),
    pending l = [mkTimer handle (t0 + d) a0] ->
    emitted (drain (snd (runCalls calls (mkDebounced d (Some handle), l))))
    = emitted l ++ map (shifted d) (lastOfBursts d ((t0, a0) :: calls)).
Proof.
  induction calls as [|[t a] rest IH]; intros l handle t0 a0 Hpending.
  - cbn. now rewrite Hpending.
  - cbn [runCalls fst snd call timeout delay].
    destruct l as [next queue sent]. cbn in Hpending. subst queue.
    cbn [lastOfBursts].
    unfold advance, clearTimeout, setTimeout.
    cbn [pending emitted nextId filter due id].
    destruct (t0 + d <=? t)%Z eqn:Due; cbn [negb filter map app id].
    + erewrite IH by reflexivity. cbn [emitted].
      rewrite <- app_assoc. reflexivity.
    + rewrite Nat.eqb_refl. cbn [negb app].
      erewrite IH by reflexivity. cbn [emitted].
      now rewrite app_nil_r.
Qed.

(** The calls of [fn] are the last calls of the bursts, each [d] later. *)
Lemma emissions_lastOfBursts (d : Z) (calls : list (Z * A)) :
  emissions d calls = map (shifted d) (lastOfBursts d calls).
Proof.
  unfold emissions. destruct calls as [|[t a] rest]; [reflexivity|].
  cbn [runCalls fst snd call debounce timeout delay emptyLoop].
  unfold advance, clearTimeout, setTimeout.
  cbn [pending emitted nextId filter map app].
  erewrite runCalls_armed by reflexivity. reflexivity.
Qed.

Lemma lastOfBursts_burst (d : Z) (calls : list (Z * A)) :
  forall t0 a0, burst d t0 calls ->
    lastOfBursts d ((t0, a0) :: calls) = [last calls (t0, a0)].
Proof.
  induction calls as [|[t a] rest IH]; intros t0 a0 H; [reflexivity|].
  cbn [burst] in H. destruct H as [Hgap Hrest].
  assert (E : (t0 + d <=? t)%Z = false) by (apply Z.leb_gt; lia).
  change (lastOfBursts d ((t0, a0) :: (t, a) :: rest))
    with (if (t0 + d <=? t)%Z
          then (t0, a0) :: lastOfBursts d ((t, a) :: rest)
          else lastOfBursts d ((t, a) :: rest)).
  rewrite E, (IH t a Hrest), last_cons. reflexivity.
Qed.

Lemma runCalls_tidy (calls : list (Z * A)) :
  forall s, tidy s ->
    tidy (runCalls calls s) /\ delay (fst (runCalls calls s)) = delay (fst s).
Proof.
  induction calls as [|[t a] rest IH]; intros s H; [now split|].
  cbn [runCalls].
  destruct (call_arms_one t a H) as [D [handle [P T]]]. cbn zeta in *.
  destruct (IH (call t a (fst s, advance t (snd s)))) as [H' D'].
  - right. eexists. split; [exact P | exact T].
  - split; [exact H' | congruence].
Qed.

Lemma runCalls_last_armed (d : Z) (calls : list (Z * A)) (t0 : Z) (a0 : A) :
  exists handle,
    pending (snd (runCalls ((t0, a0) :: calls) (debounce d, emptyLoop A)))
    = [mkTimer handle (fst (last calls (t0, a0)) + d) (snd (last calls (t0, a0)))].
Proof.
  assert (G : forall calls (s : debounced * loop A) t a,
             tidy s ->
             exists handle,
               pending (snd (runCalls ((t, a) :: calls) s))
               = [mkTimer handle (fst (last calls (t, a)) + delay (fst s))
                          (snd (last calls (t, a)))]).
  { clear. induction calls as [|[t' a'] rest IH]; intros s t a H.
    - cbn [runCalls last].
      destruct (call_arms_one t a H) as [_ [handle [P _]]]. now exists handle.
    - destruct (call_arms_one t a H) as [D [handle [P T]]]. cbn zeta in *.
      destruct (IH (call t a (fst s, advance t (snd s))) t' a') as [h' Hh'].
      + right. eexists. split; [exact P | exact T].
      + exists h'. rewrite D in Hh'.
        change (runCalls ((t, a) :: (t', a') :: rest) s)
          with (runCalls ((t', a') :: rest) (call t a (fst s, advance t (snd s)))).
        rewrite Hh', last_cons. reflexivity. }
  apply (G calls (debounce d, emptyLoop A) t0 a0). now left.
Qed.

(** C6: in a burst, every call less than [delay] after the one before, the
    wrapped function runs once, with the arguments of the last call and
    [delay] after it; and after the calls one timer is pending, the one
    armed by the last call with its arguments. *)
Theorem debounce_burst_emits_last
    (d t0 : Z) (a0 : A) (calls : list (Z * A)) :
  burst d t0 calls ->
  let final := last calls (t0, a0) in
  emissions d ((t0, a0) :: calls) = [((fst final + d)%Z, snd final)] /\
  exists handle,
    pending (snd (runCalls ((t0, a0) :: calls) (debounce d, emptyLoop A)))
    = [mkTimer handle (fst final + d) (snd final)].
Proof.
  intros H. cbn zeta. split.
  - rewrite emissions_lastOfBursts, (@lastOfBursts_burst d calls t0 a0 H). reflexivity.
  - apply runCalls_last_armed.
Qed.

End DebounceFacts.

Lemma debounce_burst_emits_last_witness :
  Debounce.burst 400 0 Sample.typing /\
  Debounce.emissions 400 ((0%Z, lit "h") :: Sample.typing) = [(600%Z, lit "hell")].
Proof.
  assert (B : Debounce.burst 400 0 Sample.typing).
  { cbn. repeat split; lia. }
  split; [exact B|].
  apply (@debounce_burst_emits_last jsstring 400 0 (lit "h") Sample.typing B).
Defined.

(** ** Endpoint resolution and reconfiguration *)

Section Endpoint.

Local Open Scope method_scope.

Lemma getEndpoint_stable (c : Config.t) :
  getEndpoint (Config.withApiEndpoint (getEndpoint c) c) = getEndpoint c.
Proof.
  unfold getEndpoint, Config.withApiEndpoint.
  cbn [Config.mode Config.apiKey Config.apiEndpoint].
  destruct (JsString.eqb (Config.mode c) (lit "console")); [reflexivity|].
  destruct (JsString.eqb (Config.mode c) (lit "self-hosted"));
    destruct (JsString.eqb (Config.mode c) (lit "hosted"));
    destruct (Config.apiEndpoint c) as [[|a e]|];
    destruct (Config.apiKey c) as [[|b k]|];
    cbn; try rewrite ?andb_false_r; reflexivity.
Qed.

(** X1: [getEndpoint] never resolves to the empty string: it gives [null]
    or a string that [sendEvents] will post to; and resolving again on
    the resolved configuration changes nothing. *)
Theorem getEndpoint_null_or_usable (c : Config.t) :
  (getEndpoint c = None \/
   exists url, getEndpoint c = Some url /\ falsy url = false) /\
  getEndpoint (Config.withApiEndpoint (getEndpoint c) c) = getEndpoint c.
Proof.
  split; [|apply getEndpoint_stable].
  unfold getEndpoint.
  destruct (JsString.eqb (Config.mode c) (lit "console")); [now left|].
  destruct (JsString.eqb (Config.mode c) (lit "self-hosted"));
    destruct (JsString.eqb (Config.mode c) (lit "hosted"));
    destruct (Config.apiEndpoint c) as [[|a e]|];
    destruct (Config.apiKey c) as [[|b k]|];
    cbn; try (now left); right; eexists; split; reflexivity.
Qed.

Lemma updateConfig_config (o : Options.t) (m : Machine.t) :
  configOf (snd (updateConfig o m)) =
    Config.withApiEndpoint
      (getEndpoint (overrideConfig o (configOf m)))
      (overrideConfig o (configOf m)).
Proof. reflexivity. Qed.

Lemma overrideConfig_none (c : Config.t) : overrideConfig Options.none c = c.
Proof. now destruct c. Qed.

(** X2: [updateConfig] leaves a configuration whose endpoint is resolved:
    a further [updateConfig({})] returns the very same instance, and on a
    newly constructed instance [updateConfig({})] changes nothing in the
    configuration. *)
Theorem updateConfig_settles
    (o : Options.t) (m : Machine.t)
    (options : Options.t) (env : Env.t) (stored : ConsentResult) :
  snd (updateConfig Options.none (snd (updateConfig o m))) = snd (updateConfig o m) /\
  configOf (snd (updateConfig Options.none (snd (constructor options env stored))))
  = configOf (snd (constructor options env stored)).
Proof.
  split.
  - unfold updateConfig, update. cbn [snd Machine.self Machine.inflight
      Machine.nextRequest Machine.trace].
    f_equal. unfold Tracker.withConfig. tracker_fields. f_equal.
    rewrite overrideConfig_none. cbn zeta.
    set (c := overrideConfig o (Tracker.config (Machine.self m))).
    rewrite getEndpoint_stable.
    unfold Config.withApiEndpoint. cbn. reflexivity.
  - rewrite updateConfig_config, overrideConfig_none.
    unfold constructor.
    match goal with |- context [init env stored ?m0] =>
      destruct (init_keeps_config env stored m0) as [_ C]; rewrite C end.
    unfold configOf. tracker_fields.
    set (c := mergeOptions options).
    rewrite getEndpoint_stable.
    unfold Config.withApiEndpoint. cbn. reflexivity.
Qed.

(** X3: a switch to console mode erases the endpoint, also one given in
    the same call; a later switch to self-hosted mode that does not give
    [apiEndpoint] again leaves the instance without an endpoint. *)
Theorem console_mode_erases_endpoint (o1 o2 : Options.t) (m : Machine.t) :
  Options.mode o1 = Some (lit "console") ->
  Options.mode o2 = Some (lit "self-hosted") ->
  Options.apiEndpoint o2 = None ->
  Config.apiEndpoint (configOf (snd (updateConfig o1 m))) = None /\
  Config.apiEndpoint
    (configOf (snd (updateConfig o2 (snd (updateConfig o1 m))))) = None.
Proof.
  intros M1 M2 E2.
  assert (First : Config.apiEndpoint (configOf (snd (updateConfig o1 m))) = None).
  { rewrite updateConfig_config. unfold Config.withApiEndpoint, getEndpoint, overrideConfig.
    cbn [Config.apiEndpoint Config.mode]. now rewrite M1. }
  split; [exact First|].
  rewrite updateConfig_config.
  unfold Config.withApiEndpoint, getEndpoint, overrideConfig.
  cbn [Config.apiEndpoint Config.mode Config.apiKey].
  rewrite M2, E2, First. reflexivity.
Qed.

End Endpoint.

(** ** The life cycle of an instance *)

Section Lifecycle.

Local Open Scope method_scope.

Lemma enable_from_disabled (env : Env.t) (m : Machine.t) :
  Tracker.isTrackingEnabled (Machine.self m) = false ->
  let m' := snd (enable env m) in
  Tracker.isTrackingEnabled (Machine.self m') = true /\
  Tracker.listeners (Machine.self m') =
    Tracker.listeners (Machine.self m) ++
    map InputListener (filter notSensitive (Env.inputs env)) ++
    [ClickListener; ScrollListener] /\
  Tracker.observers (Machine.self m') = S (Tracker.observers (Machine.self m)) /\
  Tracker.flushTimer (Machine.self m') =
    (if isConsole (configOf m) then Tracker.flushTimer (Machine.self m)
     else Some (Config.flushInterval (configOf m))) /\
  bufferOf m' = bufferOf m /\
  Machine.inflight m' = Machine.inflight m /\
  Tracker.sessionId (Machine.self m') = Tracker.sessionId (Machine.self m).
Proof.
  intros D. cbn zeta. unfold isConsole, configOf, bufferOf. lifecycle.
  rewrite D. tracker_fields.
  destruct (JsString.eqb (Config.mode (Tracker.config (Machine.self m)))
                         (lit "console")); cbn [negb]; tracker_fields;
    repeat split.
Qed.

Lemma enable_when_enabled (env : Env.t) (m : Machine.t) :
  Tracker.isTrackingEnabled (Machine.self m) = true ->
  enable env m = (inr tt, m).
Proof. intros E. unfold enable. run_monad. now rewrite E. Qed.

Lemma enable_enables (env : Env.t) (m : Machine.t) :
  Tracker.isTrackingEnabled (Machine.self (snd (enable env m))) = true.
Proof.
  destruct (Tracker.isTrackingEnabled (Machine.self m)) eqn:E.
  - now rewrite (enable_when_enabled env m E).
  - now apply enable_from_disabled.
Qed.

Lemma init_cases (env : Env.t) (stored : ConsentResult) (m : Machine.t) :
  snd (init env stored m) =
    (if isConsole (configOf m) || consentGiven (consentAnswer (configOf m) stored)
     then snd (enable env m) else m).
Proof.
  destruct (enable_keeps_config env m) as [R _].
  unfold init, callConsentCheck, isConsole, consentAnswer, configOf. run_monad.
  destruct (JsString.eqb (Config.mode (Tracker.config (Machine.self m)))
                         (lit "console")); cbn [orb].
  - destruct (enable env m) as [[e|[]] m']; cbn [fst snd] in *;
      [discriminate R | reflexivity].
  - destruct (match Config.consentCheck (Tracker.config (Machine.self m)) with
              | Some f => f tt
              | None => stored
              end); cbn [consentGiven]; cbn beta iota; try reflexivity.
    destruct (enable env m) as [[e|[]] m']; cbn [fst snd] in *;
      [discriminate R | reflexivity].
Qed.

Lemma constructor_cases (options : Options.t) (env : Env.t) (stored : ConsentResult) :
  let c := mergeOptions options in
  let start :=
    Machine.make
      (Tracker.make (Config.withApiEndpoint (getEndpoint c) c) [] false 0 [] None
                    (Some (Env.freshSessionId env))) [] 0 [] in
  snd (constructor options env stored) =
    (if isConsole c || consentGiven (consentAnswer c stored)
     then snd (enable env start) else start).
Proof. cbn zeta. unfold constructor. now rewrite init_cases. Qed.



(** X7: [enable] on an instance that tracks already changes nothing, so
    enabling twice registers the listeners and starts the timer once. *)
Theorem enable_twice (env env' : Env.t) (m : Machine.t) :
  enable env' (snd (enable env m)) = (inr tt, snd (enable env m)).
Proof. apply enable_when_enabled, enable_enables. Qed.

Lemma disable_when_enabled (m : Machine.t) :
  Tracker.isTrackingEnabled (Machine.self m) = true ->
  let m' := snd (disable m) in
  Tracker.isTrackingEnabled (Machine.self m') = false /\
  Tracker.listeners (Machine.self m') = [] /\
  Tracker.observers (Machine.self m') = 0 /\
  Tracker.flushTimer (Machine.self m') = None /\
  bufferOf m' = bufferOf m /\
  configOf m' = configOf m /\
  Tracker.sessionId (Machine.self m') = Tracker.sessionId (Machine.self m) /\
  Machine.inflight m' = Machine.inflight m /\
  posted m' = posted m.
Proof.
  intros E. cbn zeta. unfold bufferOf, configOf, posted. lifecycle. rewrite E.
  cbn [negb]. tracker_fields.
  destruct (Tracker.flushTimer (Machine.self m)) eqn:T; tracker_fields;
    rewrite ?T, ?filter_app, ?app_nil_r; cbn [filter isFetchPosted];
    rewrite ?app_nil_r; repeat split.
Qed.

Lemma disable_when_disabled (m : Machine.t) :
  Tracker.isTrackingEnabled (Machine.self m) = false ->
  disable m = (inr tt, m).
Proof. intros D. unfold disable. run_monad. now rewrite D. Qed.

(** X8: [disable] turns tracking off and, on an instance that tracked,
    leaves no listener, no observer and no flush timer; it keeps the
    buffered events and posts nothing.  On an instance that did not track
    it does nothing. *)
Theorem disable_releases_handles (m : Machine.t) :
  let m' := snd (disable m) in
  Tracker.isTrackingEnabled (Machine.self m') = false /\
  bufferOf m' = bufferOf m /\
  posted m' = posted m /\
  (Tracker.isTrackingEnabled (Machine.self m) = true ->
     Tracker.listeners (Machine.self m') = [] /\
     Tracker.observers (Machine.self m') = 0 /\
     Tracker.flushTimer (Machine.self m') = None) /\
  (Tracker.isTrackingEnabled (Machine.self m) = false -> m' = m).
Proof.
  cbn zeta. destruct (Tracker.isTrackingEnabled (Machine.self m)) eqn:E.
  - destruct (disable_when_enabled m E) as [A [B [C [D [F [_ [_ [_ P]]]]]]]].
    repeat split; try assumption. discriminate.
  - rewrite (disable_when_disabled m E). cbn [snd].
    repeat split; try assumption; discriminate.
Qed.

Lemma tracker_ext (k k' : Tracker.t) :
  Tracker.config k = Tracker.config k' ->
  Tracker.eventBuffer k = Tracker.eventBuffer k' ->
  Tracker.isTrackingEnabled k = Tracker.isTrackingEnabled k' ->
  Tracker.observers k = Tracker.observers k' ->
  Tracker.listeners k = Tracker.listeners k' ->
  Tracker.flushTimer k = Tracker.flushTimer k' ->
  Tracker.sessionId k = Tracker.sessionId k' ->
  k = k'.
Proof. destruct k, k'. cbn. intros; subst; reflexivity. Qed.

(** X9: listeners do not pile up: on an instance without handles, enabling,
    disabling and enabling again leaves the same instance as enabling
    once. *)
Theorem enable_disable_enable (env : Env.t) (m : Machine.t) :
  Tracker.isTrackingEnabled (Machine.self m) = false ->
  Tracker.listeners (Machine.self m) = [] ->
  Tracker.observers (Machine.self m) = 0 ->
  Tracker.flushTimer (Machine.self m) = None ->
  Machine.self (snd (enable env (snd (disable (snd (enable env m))))))
  = Machine.self (snd (enable env m)).
Proof.
  intros D L O T.
  pose proof (enable_from_disabled env m D) as [E1 [L1 [O1 [T1 [B1 [_ S1]]]]]].
  destruct (enable_keeps_config env m) as [_ C1].
  set (m1 := snd (enable env m)) in *.
  pose proof (disable_when_enabled m1 E1) as [E2 [L2 [O2 [T2 [B2 [C2 [S2 _]]]]]]].
  set (m2 := snd (disable m1)) in *.
  pose proof (enable_from_disabled env m2 E2) as [E3 [L3 [O3 [T3 [B3 [_ S3]]]]]].
  destruct (enable_keeps_config env m2) as [_ C3].
  set (m3 := snd (enable env m2)) in *.
  unfold bufferOf, configOf in *.
  apply tracker_ext; try congruence;
    first [ rewrite L3, L2, L1, L; reflexivity
          | rewrite T3, T1, T2, T, C2, C1; reflexivity ].
Qed.

End Lifecycle.

(** ** Instances that do not track *)

Section Quiet.

Local Open Scope method_scope.

Lemma flush_idle (m : Machine.t) :
  bufferOf m = [] ->
  flush m = (inr tt, Machine.make (Machine.self m) (Machine.inflight m)
                                  (Machine.nextRequest m)
                                  (Machine.trace m ++ [FlushCalled])).
Proof.
  unfold bufferOf. intros B. unfold flush. run_monad. now rewrite B.
Qed.

(** An instance that is off, with nothing buffered and nothing in flight,
    stays that way under tracks, timer ticks and settling requests. *)
Lemma run_quiet (actions : list Action) :
  forall m,
    Tracker.isTrackingEnabled (Machine.self m) = false ->
    bufferOf m = [] ->
    Machine.inflight m = [] ->
    Machine.self (snd (run actions m)) = Machine.self m /\
    Machine.inflight (snd (run actions m)) = [] /\
    posted (snd (run actions m)) = posted m /\
    hookCalls (snd (run actions m)) = hookCalls m.
Proof.
  induction actions as [|a rest IH]; intros m D B Q; [now repeat split|].
  cbn [run]. unfold bind.
  assert (Step : exists m1, step a m = (inr tt, m1) /\
                   Machine.self m1 = Machine.self m /\
                   Machine.inflight m1 = [] /\
                   posted m1 = posted m /\ hookCalls m1 = hookCalls m).
  { destruct a as [env type data| |id outcome]; cbn [step].
    - exists m. rewrite (track_disabled env type data m D). now repeat split.
    - unfold detached. rewrite (flush_idle m B). cbn [snd].
      eexists. split; [reflexivity|]. unfold posted, hookCalls. tracker_fields.
      rewrite !filter_app. cbn. rewrite !app_nil_r. now repeat split.
    - unfold detached, flushSettled, resume. run_monad. rewrite Q.
      cbn [lookupRequest removeRequest]. tracker_fields.
      eexists. split; [reflexivity|]. now repeat split. }
  destruct Step as [m1 [R [S1 [Q1 [P1 H1]]]]]. rewrite R.
  destruct (IH m1) as [S2 [Q2 [P2 H2]]].
  - now rewrite S1.
  - unfold bufferOf in *. now rewrite S1.
  - exact Q1.
  - repeat split; congruence.
Qed.

(** X5: outside console mode and without a yes from the consent check,
    the new instance collects nothing, whatever is tracked later: the
    buffer stays empty, [onFlush] is never called, nothing is posted, and
    no listener or observer was registered. *)
Theorem no_consent_no_collection
    (options : Options.t) (env : Env.t) (stored : ConsentResult)
    (actions : list Action) :
  isConsole (mergeOptions options) = false ->
  consentGiven (consentAnswer (mergeOptions options) stored) = false ->
  let later := snd (run actions (snd (constructor options env stored))) in
  bufferOf later = [] /\
  posted later = [] /\
  hookCalls later = [] /\
  Tracker.listeners (Machine.self later) = [] /\
  Tracker.observers (Machine.self later) = 0.
Proof.
  intros Mode Consent. cbn zeta.
  pose proof (constructor_cases options env stored) as Built. cbn zeta in Built.
  rewrite Mode, Consent in Built. cbn [orb] in Built. rewrite Built.
  set (start := Machine.make _ _ _ _).
  destruct (run_quiet actions start) as [S [_ [P H]]]; try reflexivity.
  unfold bufferOf. rewrite S, P, H. now repeat split.
Qed.

Lemma destroy_result (m : Machine.t) :
  let m' := snd (destroy m) in
  fst (destroy m) = inr tt /\
  Tracker.isTrackingEnabled (Machine.self m') = false /\
  bufferOf m' = [] /\
  Tracker.sessionId (Machine.self m') = None /\
  Machine.inflight m' = Machine.inflight m /\
  posted m' = posted m /\
  hookCalls m' = hookCalls m.
Proof.
  cbn zeta. unfold bufferOf, posted, hookCalls.
  unfold destroy, disable, cleanup. run_monad.
  destruct (Tracker.isTrackingEnabled (Machine.self m)) eqn:E; cbn [negb];
    tracker_fields; [|now rewrite E].
  destruct (Tracker.flushTimer (Machine.self m)) eqn:T; tracker_fields;
    rewrite ?filter_app, ?app_nil_r; cbn [filter isFetchPosted isHookCalled];
    rewrite ?app_nil_r; repeat split.
Qed.

(** X10: [destroy] drops the buffered events without posting them and
    clears the session; with no request in flight the instance then stays
    empty and silent under any later tracks, ticks and settles. *)
Theorem destroy_discards (m : Machine.t) (actions : list Action) :
  Machine.inflight m = [] ->
  let destroyed := snd (destroy m) in
  let later := snd (run actions destroyed) in
  bufferOf destroyed = [] /\
  posted destroyed = posted m /\
  Tracker.sessionId (Machine.self destroyed) = None /\
  bufferOf later = [] /\
  posted later = posted m /\
  hookCalls later = hookCalls m.
Proof.
  intros Q. cbn zeta.
  destruct (destroy_result m) as [_ [D [B [S [I [P H]]]]]]. cbn zeta in *.
  destruct (run_quiet actions (snd (destroy m))) as [S' [_ [P' H']]];
    try assumption; try congruence.
  unfold bufferOf in *. rewrite S', P', H'. now repeat split.
Qed.

(** X11: [destroy] does not cancel a request in flight: when that request
    fails afterwards, its batch is put back into the buffer of the
    destroyed instance. *)
Theorem destroy_keeps_request_in_flight
    (m : Machine.t) (id : nat) (batch : list Event.t) (outcome : FetchOutcome) :
  lookupRequest id (Machine.inflight m) = Some batch ->
  sendFails outcome = true ->
  let settled := snd (flushSettled id outcome (snd (destroy m))) in
  bufferOf settled = batch /\
  Tracker.isTrackingEnabled (Machine.self settled) = false /\
  Tracker.sessionId (Machine.self settled) = None.
Proof.
  intros L F. cbn zeta.
  destruct (destroy_result m) as [_ [D [B [S [I _]]]]]. cbn zeta in *.
  rewrite <- I in L.
  rewrite (flushSettled_failure id outcome (snd (destroy m)) L F), B, app_nil_r.
  split; [reflexivity|].
  unfold flushSettled, resume, sendEventsSettled, requeue. run_monad.
  rewrite L. destruct outcome as [|[|] [|]]; try discriminate F;
    tracker_fields; now split.
Qed.

End Quiet.

(** ** Delivery *)

Section Delivery.

Local Open Scope method_scope.

Lemma run_app (actions later : list Action) :
  forall m, fst (run actions m) = inr tt ->
    run (actions ++ later) m = run later (snd (run actions m)).
Proof.
  induction actions as [|a rest IH]; intros m R; [reflexivity|].
  cbn [app run] in *. unfold bind in *.
  destruct (step a m) as [[e|[]] m1]; [discriminate R|]. now apply IH.
Qed.

Lemma pushedAll_nil (m : Machine.t) : pushedAll [] m = m.
Proof.
  destruct m as [[c b e o l f i] q n t]. unfold pushedAll, bufferOf. cbn.
  now rewrite app_nil_r.
Qed.

(** Calls of [track] that stay below the capacity change the buffer only. *)
Lemma run_tracks_push (calls : list (Env.t * jsstring * Event.payload)) :
  forall m,
    Tracker.isTrackingEnabled (Machine.self m) = true ->
    (Z.of_nat (length (bufferOf m) + length calls)
       < Config.bufferSize (configOf m))%Z ->
    run (map trackAction calls) m = (inr tt, pushedAll calls m).
Proof.
  induction calls as [|[[env type] data] calls IH]; intros m E B.
  - cbn. now rewrite pushedAll_nil.
  - cbn [map trackAction run step]. unfold bind.
    rewrite (track_enabled env type data m E).
    set (appended := pushed _ m).
    assert (L : length (bufferOf appended) = S (length (bufferOf m))).
    { unfold appended, pushed, bufferOf. tracker_fields.
      rewrite length_app. cbn. lia. }
    cbn [length] in B.
    destruct (Config.bufferSize (configOf m) <=? Z.of_nat (length (bufferOf appended)))%Z
      eqn:Full; [apply Z.leb_le in Full; lia|].
    rewrite IH.
    + unfold appended, pushedAll, pushed, bufferOf, eventOf. tracker_fields.
      cbn [map]. now rewrite <- app_assoc.
    + exact E.
    + rewrite L. unfold appended, pushed, configOf in *. tracker_fields. lia.
Qed.

(** [flush] with a batch, an endpoint and a hook that lets it pass. *)
Lemma flush_posts_batch (m : Machine.t) (url : jsstring) :
  bufferOf m <> [] ->
  isConsole (configOf m) = false ->
  hookThrows (configOf m) (bufferOf m) = false ->
  Config.apiEndpoint (configOf m) = Some url ->
  falsy url = false ->
  let m' := snd (flush m) in
  bufferOf m' = [] /\
  Machine.inflight m' = Machine.inflight m ++ [(Machine.nextRequest m, bufferOf m)] /\
  Machine.nextRequest m' = S (Machine.nextRequest m) /\
  posted m' = posted m ++ [FetchPosted url (bufferOf m)] /\
  configOf m' = configOf m.
Proof.
  unfold isConsole, configOf, bufferOf, hookThrows, posted.
  intros Hne Hmode Hpasses Hurl Htruthy. cbn zeta.
  flush_cases m; try congruence; try discriminate Hpasses.
  all: injection Hurl as <-; try discriminate Htruthy.
  all: rewrite ?filter_app; cbn [filter isFetchPosted]; rewrite ?app_nil_r;
       repeat split.
Qed.

(** [flush] with a batch and no endpoint. *)
Lemma flush_drops_batch (m : Machine.t) :
  bufferOf m <> [] ->
  isConsole (configOf m) = false ->
  hookThrows (configOf m) (bufferOf m) = false ->
  truthyString (Config.apiEndpoint (configOf m)) = false ->
  let m' := snd (flush m) in
  bufferOf m' = [] /\
  Machine.inflight m' = Machine.inflight m /\
  posted m' = posted m.
Proof.
  unfold isConsole, configOf, bufferOf, hookThrows, posted, truthyString.
  intros Hne Hmode Hpasses Hurl. cbn zeta.
  flush_cases m; try congruence; try discriminate Hpasses;
    try discriminate Hurl.
  all: rewrite ?filter_app; cbn [filter isFetchPosted]; rewrite ?app_nil_r;
       repeat split.
Qed.

(** X12: outside console mode an instance without an endpoint loses what
    it flushes: the batch leaves the buffer, nothing is posted, nothing is
    parked, and no later settle can bring the events back. *)
Theorem flush_without_endpoint_loses_batch
    (m : Machine.t) (id : nat) (outcome : FetchOutcome) :
  bufferOf m <> [] ->
  Machine.inflight m = [] ->
  isConsole (configOf m) = false ->
  hookThrows (configOf m) (bufferOf m) = false ->
  truthyString (Config.apiEndpoint (configOf m)) = false ->
  let m' := snd (flush m) in
  bufferOf m' = [] /\
  posted m' = posted m /\
  held m' = [] /\
  bufferOf (snd (flushSettled id outcome m')) = [].
Proof.
  intros Hne Q Hmode Hpasses Hurl. cbn zeta.
  destruct (flush_drops_batch m Hne Hmode Hpasses Hurl) as [B [I P]].
  cbn zeta in *. rewrite Q in I.
  repeat split; try assumption.
  - unfold held. now rewrite B, I.
  - unfold flushSettled, resume. run_monad. rewrite I. cbn [lookupRequest].
    exact B.
Qed.

Lemma flushSettled_keeps (id : nat) (outcome : FetchOutcome) (m : Machine.t) :
  configOf (snd (flushSettled id outcome m)) = configOf m /\
  Machine.trace (snd (flushSettled id outcome m)) = Machine.trace m /\
  Machine.nextRequest (snd (flushSettled id outcome m)) = Machine.nextRequest m.
Proof.
  unfold flushSettled, resume, sendEventsSettled, requeue, configOf. run_monad.
  destruct (lookupRequest id (Machine.inflight m)); [|now repeat split].
  destruct outcome as [|[|] [|]]; now repeat split.
Qed.

(** X13: when the buffer of an enabled instance reaches its capacity, the
    [track] call that fills it posts the whole buffer, oldest event first,
    as one request, and leaves the buffer empty; when the request succeeds
    the buffer is still empty: nothing is put back. *)
Theorem capacity_reached_posts_once
    (m : Machine.t) (calls : list (Env.t * jsstring * Event.payload))
    (last : Env.t * jsstring * Event.payload) (endpoint : jsstring) :
  Tracker.isTrackingEnabled (Machine.self m) = true ->
  bufferOf m = [] ->
  isConsole (configOf m) = false ->
  Config.apiEndpoint (configOf m) = Some endpoint ->
  falsy endpoint = false ->
  Config.bufferSize (configOf m) = Z.of_nat (S (length calls)) ->
  hookThrows (configOf m) (map (eventOf (Machine.self m)) (calls ++ [last])) = false ->
  let batch := map (eventOf (Machine.self m)) (calls ++ [last]) in
  let m' := snd (run (map trackAction (calls ++ [last])) m) in
  bufferOf m' = [] /\
  posted m' = posted m ++ [FetchPosted endpoint batch] /\
  flushCalls m' = S (flushCalls m) /\
  Machine.inflight m' = Machine.inflight m ++ [(Machine.nextRequest m, batch)] /\
  (forall outcome, sendFails outcome = false ->
     bufferOf (snd (flushSettled (Machine.nextRequest m) outcome m')) = []).
Proof.
  intros E B Mode Url Truthy Cap Hook. cbn zeta.
  assert (Below : (Z.of_nat (length (bufferOf m) + length calls)
                     < Config.bufferSize (configOf m))%Z).
  { rewrite B, Cap. cbn [length]. lia. }
  rewrite map_app, run_app by (now rewrite (run_tracks_push calls m E Below)).
  rewrite (run_tracks_push calls m E Below). cbn [snd].
  destruct last as [[env type] data].
  cbn [map trackAction run step]. unfold bind.
  set (m1 := pushedAll calls m).
  assert (E1 : Tracker.isTrackingEnabled (Machine.self m1) = true) by exact E.
  rewrite (track_enabled env type data m1 E1).
  set (appended := pushed _ m1).
  assert (Buf : bufferOf appended
                = map (eventOf (Machine.self m)) (calls ++ [(env, type, data)])).
  { unfold appended, m1, pushed, pushedAll, bufferOf in *. tracker_fields.
    rewrite B, map_app. reflexivity. }
  assert (Full : (Config.bufferSize (configOf m1) <=?
                  Z.of_nat (length (bufferOf appended)))%Z = true).
  { apply Z.leb_le. rewrite Buf, length_map, length_app.
    change (configOf m1) with (configOf m). rewrite Cap. cbn [length]. lia. }
  rewrite Full. cbn [snd].
  assert (Hne : bufferOf appended <> []).
  { rewrite Buf, map_app. intros H. apply app_eq_nil in H.
    destruct H as [_ H]. discriminate H. }
  assert (Hook' : hookThrows (configOf appended) (bufferOf appended) = false).
  { rewrite Buf. exact Hook. }
  destruct (flush_posts_batch appended Hne Mode Hook' Url Truthy)
    as [B' [I' [_ [P' _]]]]. cbn zeta in *.
  rewrite Buf in I', P'.
  split; [exact B'|]. split; [exact P'|]. split; [|split].
  - unfold ret. cbn [snd]. rewrite flush_counts_once. reflexivity.
  - exact I'.
  - intros outcome Ok. rewrite flushSettled_success by exact Ok. exact B'.
Qed.

(** X14: delivery is at least once: after a failed request the next
    [flush] posts the failed batch again, followed by the events that
    arrived in between, as one request. *)
Theorem failed_batch_is_posted_again
    (m : Machine.t) (id : nat) (batch : list Event.t)
    (outcome : FetchOutcome) (endpoint : jsstring) :
  lookupRequest id (Machine.inflight m) = Some batch ->
  batch <> [] ->
  sendFails outcome = true ->
  isConsole (configOf m) = false ->
  Config.apiEndpoint (configOf m) = Some endpoint ->
  falsy endpoint = false ->
  hookThrows (configOf m) (batch ++ bufferOf m) = false ->
  let retried := snd (flush (snd (flushSettled id outcome m))) in
  posted retried = posted m ++ [FetchPosted endpoint (batch ++ bufferOf m)] /\
  bufferOf retried = [].
Proof.
  intros L Hne F Mode Url Truthy Hook. cbn zeta.
  pose proof (flushSettled_failure id outcome m L F) as B.
  destruct (flushSettled_keeps id outcome m) as [C [T _]].
  set (m1 := snd (flushSettled id outcome m)) in *.
  assert (Hne1 : bufferOf m1 <> []).
  { rewrite B. intros H. apply app_eq_nil in H. now destruct H. }
  assert (Mode1 : isConsole (configOf m1) = false) by now rewrite C.
  assert (Hook1 : hookThrows (configOf m1) (bufferOf m1) = false)
    by now rewrite C, B.
  assert (Url1 : Config.apiEndpoint (configOf m1) = Some endpoint)
    by now rewrite C.
  destruct (flush_posts_batch m1 Hne1 Mode1 Hook1 Url1 Truthy)
    as [B' [_ [_ [P' _]]]]. cbn zeta in *.
  split.
  - rewrite P', B. unfold posted. now rewrite T.
  - exact B'.
Qed.

End Delivery.

(** ** Nothing is lost while deliveries fail *)

Section Conservation.

Local Open Scope method_scope.

Lemma removeRequest_absent (id : nat) (l : list (nat * list Event.t)) :
  lookupRequest id l = None -> removeRequest id l = l.
Proof.
  induction l as [|[i b] l IH]; cbn; [reflexivity|].
  destruct (Nat.eqb i id); [discriminate|]. intros H. now rewrite IH.
Qed.

Lemma removeRequest_present (id : nat) (batch : list Event.t)
    (l : list (nat * list Event.t)) :
  lookupRequest id l = Some batch ->
  Permutation (concat (map snd l))
              (batch ++ concat (map snd (removeRequest id l))).
Proof.
  induction l as [|[i b] l IH]; cbn; [discriminate|].
  destruct (Nat.eqb i id).
  - intros H. injection H as ->. apply Permutation_refl.
  - intros H. cbn. specialize (IH H).
    rewrite IH, !app_assoc. apply Permutation_app_tail, Permutation_app_comm.
Qed.

Lemma held_pushed (event : Event.t) (m : Machine.t) :
  Permutation (held (pushed event m)) (held m ++ [event]).
Proof.
  unfold held, pushed, bufferOf. tracker_fields.
  rewrite <- !app_assoc. apply Permutation_app_head, Permutation_app_comm.
Qed.

Lemma flush_held (m : Machine.t) :
  isConsole (configOf m) = false ->
  truthyString (Config.apiEndpoint (configOf m)) = true ->
  Permutation (held (snd (flush m))) (held m).
Proof.
  unfold isConsole, configOf, truthyString, held, bufferOf.
  intros Hmode Hurl.
  flush_cases m; try congruence; try discriminate Hurl;
    rewrite ?app_nil_r; try apply Permutation_refl.
  all: rewrite map_app, concat_app; cbn [map concat snd app];
       rewrite app_nil_r; apply Permutation_app_comm.
Qed.

Lemma flushSettled_held (id : nat) (outcome : FetchOutcome) (m : Machine.t) :
  sendFails outcome = true ->
  Permutation (held (snd (flushSettled id outcome m))) (held m).
Proof.
  intros F. unfold held, bufferOf.
  unfold flushSettled, resume, sendEventsSettled, requeue. run_monad.
  destruct (lookupRequest id (Machine.inflight m)) as [batch|] eqn:L.
  - pose proof (removeRequest_present id (Machine.inflight m) L) as P.
    destruct outcome as [|[|] [|]]; try discriminate F; tracker_fields.
    all: rewrite P, (app_assoc (Tracker.eventBuffer (Machine.self m)) batch);
         apply Permutation_app_tail, Permutation_app_comm.
  - tracker_fields. rewrite (removeRequest_absent id (Machine.inflight m) L).
    apply Permutation_refl.
Qed.

Lemma step_keeps (a : Action) (m : Machine.t) :
  fst (step a m) = inr tt /\
  configOf (snd (step a m)) = configOf m /\
  Tracker.isTrackingEnabled (Machine.self (snd (step a m)))
  = Tracker.isTrackingEnabled (Machine.self m) /\
  Tracker.sessionId (Machine.self (snd (step a m)))
  = Tracker.sessionId (Machine.self m).
Proof.
  assert (H : exists id, settles id a = false).
  { destruct a as [env type data| |i outcome].
    - now exists 0.
    - now exists 0.
    - exists (S i). cbn. apply Nat.eqb_neq. lia. }
  destruct H as [id H].
  destruct (step_preserved id a m H) as [R P].
  repeat split; [exact R | apply (keeps_config P) | apply (keeps_enabled P)
                 | apply (keeps_session P)].
Qed.

Lemma trackedBy_session (k k' : Tracker.t) (actions : list Action) :
  Tracker.sessionId k = Tracker.sessionId k' ->
  trackedBy k actions = trackedBy k' actions.
Proof.
  intros S. unfold trackedBy. apply flat_map_ext. intros [env type data| |i o];
    try reflexivity.
  now rewrite (eventOf_session k k' (env, type, data) S).
Qed.

Lemma step_held (a : Action) (m : Machine.t) :
  Tracker.isTrackingEnabled (Machine.self m) = true ->
  isConsole (configOf m) = false ->
  truthyString (Config.apiEndpoint (configOf m)) = true ->
  everySettleFails [a] = true ->
  Permutation (held (snd (step a m))) (held m ++ trackedBy (Machine.self m) [a]).
Proof.
  intros E Mode Url F.
  destruct a as [env type data| |id outcome]; cbn [step trackedBy flat_map app].
  - rewrite (track_enabled env type data m E). cbn [snd].
    match goal with |- context [if ?b then _ else _] => destruct b end.
    + rewrite flush_held by assumption. apply held_pushed.
    + apply held_pushed.
  - unfold detached. cbn [snd]. rewrite app_nil_r. now apply flush_held.
  - unfold detached. cbn [snd]. rewrite app_nil_r.
    apply flushSettled_held. cbn in F. now rewrite andb_true_r in F.
Qed.

(** X15: while every request fails, no event is lost.  On an enabled
    instance outside console mode and with an endpoint, after any run of
    tracks, timer ticks and failing requests, the buffer together with the
    batches still in flight holds exactly the events held before and the
    events tracked since, each as often as it was tracked. *)
Theorem nothing_lost_while_requests_fail (actions : list Action) :
  forall m,
    Tracker.isTrackingEnabled (Machine.self m) = true ->
    isConsole (configOf m) = false ->
    truthyString (Config.apiEndpoint (configOf m)) = true ->
    everySettleFails actions = true ->
    Permutation (held (snd (run actions m)))
                (held m ++ trackedBy (Machine.self m) actions).
Proof.
  induction actions as [|a rest IH]; intros m E Mode Url F.
  - cbn. rewrite app_nil_r. apply Permutation_refl.
  - assert (Fa : everySettleFails [a] = true /\ everySettleFails rest = true).
    { unfold everySettleFails in *. cbn [forallb] in *.
      apply andb_true_iff in F. destruct F as [Fa Fr].
      now rewrite Fa, Fr. }
    destruct Fa as [Fa Fr].
    destruct (step_keeps a m) as [R [C [En S]]].
    pose proof (step_held a m E Mode Url Fa) as Hstep.
    cbn [run]. unfold bind.
    destruct (step a m) as [[e|[]] m1]; cbn [fst snd] in *; [discriminate R|].
    rewrite IH; try congruence.
    rewrite (trackedBy_session (Machine.self m1) (Machine.self m) rest S).
    rewrite Hstep.
    change (a :: rest) with ([a] ++ rest).
    unfold trackedBy at 3. rewrite flat_map_app. fold (trackedBy (Machine.self m) [a]).
    fold (trackedBy (Machine.self m) rest).
    rewrite app_assoc. apply Permutation_refl.
Qed.

End Conservation.

(** ** The two revisions of the class *)

Section Revisions.

Local Open Scope method_scope.

Lemma legacy_flush (m : Machine.t) :
  isConsole (configOf m) = false -> flush m = Legacy.flush m.
Proof.
  unfold isConsole, configOf. intros Mode.
  unfold flush, Legacy.flush. run_monad.
  destruct (Nat.eqb (length (Tracker.eventBuffer (Machine.self m))) 0);
    [reflexivity|].
  tracker_fields. now rewrite Mode.
Qed.

(** X16: outside console mode the methods of the later revision do what
    those of the earlier revision do: [flush], [track], [enable] and
    [init] give the same result and the same instance. *)
Theorem revisions_agree_outside_console
    (m : Machine.t) (env : Env.t) (type : jsstring) (data : Event.payload)
    (stored : ConsentResult) :
  isConsole (configOf m) = false ->
  flush m = Legacy.flush m /\
  track env type data m = Legacy.track env type data m /\
  enable env m = Legacy.enable env m /\
  init env stored m = Legacy.init env stored m.
Proof.
  intros Mode.
  assert (En : enable env m = Legacy.enable env m).
  { unfold enable, Legacy.enable. run_monad.
    unfold isConsole, configOf in Mode. rewrite Mode. reflexivity. }
  split; [now apply legacy_flush|]. split; [|split; [exact En|]].
  - unfold track, Legacy.track. run_monad.
    destruct (Tracker.isTrackingEnabled (Machine.self m)); [|reflexivity].
    cbn [negb]. tracker_fields.
    match goal with |- context [if ?b then _ else _] => destruct b end;
      [|reflexivity].
    rewrite legacy_flush; [reflexivity | exact Mode].
  - unfold init, Legacy.init. run_monad.
    unfold isConsole, configOf in Mode. rewrite Mode.
    unfold callConsentCheck. run_monad.
    destruct (match Config.consentCheck (Tracker.config (Machine.self m)) with
              | Some f => f tt
              | None => stored
              end); cbn beta iota; try reflexivity.
    now rewrite En.
Qed.

End Revisions.

(** ** From keystrokes to events *)

Section Keystrokes.

Local Open Scope method_scope.

Import Debounce.

Lemma keystrokeHandler_sensitive (env : Env.t) (target : Element.t)
    (value : jsstring) (m : Machine.t) :
  isSensitiveField (Some target) = true ->
  keystrokeHandler env target value m = (inr tt, m).
Proof. intros S. unfold keystrokeHandler. now rewrite S. Qed.

(** X17: keystrokes on sensitive targets never reach the buffer, however
    many are delivered: the instance is left as it was.  A click is
    recorded whatever its target, sensitive or not, with the target's tag
    name and the coordinates. *)
Theorem sensitive_keystrokes_vanish
    (env : Env.t) (emissions : list (Z * (Element.t * jsstring)))
    (m : Machine.t) (click : Click.t) :
  Forall (fun e => isSensitiveField (Some (fst (snd e))) = true) emissions ->
  Tracker.isTrackingEnabled (Machine.self m) = true ->
  (Z.of_nat (S (length (bufferOf m))) < Config.bufferSize (configOf m))%Z ->
  deliver env emissions m = (inr tt, m) /\
  bufferOf (snd (mouseHandler env click m))
  = bufferOf m ++
    [eventOf (Machine.self m)
       (env, lit "mouse",
        Event.Mouse (Click.clientX click) (Click.clientY click)
                    (Element.tagName (Click.target click)) (Click.type click))].
Proof.
  intros All E Below. split.
  - induction All as [|[t [target value]] rest S _ IH]; [reflexivity|].
    cbn [deliver]. unfold bind. cbn [fst snd] in S.
    now rewrite (keystrokeHandler_sensitive (envAt t env) target value m S).
  - unfold mouseHandler. rewrite (track_enabled _ _ _ m E). cbn [snd].
    match goal with |- context [if ?b then _ else _] => destruct b eqn:Full end.
    + apply Z.leb_le in Full. unfold pushed, bufferOf in Full. revert Full.
      tracker_fields. rewrite length_app. cbn [length]. unfold bufferOf in Below.
      lia.
    + reflexivity.
Qed.

(** X18: a burst of keystrokes, on whatever fields, leaves one event in
    the buffer when the field of the last keystroke is not sensitive: the
    event is stamped [delay] after the last keystroke and carries the
    length and the descriptor of the last value, nothing of the earlier
    ones. *)
Theorem keystroke_burst_buffers_last_value
    (env : Env.t) (d t0 : Z) (first : Element.t * jsstring)
    (calls : list (Z * (Element.t * jsstring))) (m : Machine.t) :
  burst d t0 calls ->
  let final := last calls (t0, first) in
  isSensitiveField (Some (fst (snd final))) = false ->
  Tracker.isTrackingEnabled (Machine.self m) = true ->
  (Z.of_nat (S (length (bufferOf m))) < Config.bufferSize (configOf m))%Z ->
  bufferOf (snd (deliver env (emissions d ((t0, first) :: calls)) m))
  = bufferOf m ++
    [keystrokeEvent (Machine.self m) env (fst final + d)
                    (fst (snd final)) (snd (snd final))].
Proof.
  intros B. cbn zeta. intros N E Below.
  rewrite emissions_lastOfBursts, (@lastOfBursts_burst _ d calls t0 first B).
  destruct (last calls (t0, first)) as [t [target value]].
  cbn [fst snd map shifted deliver] in *. unfold bind, keystrokeHandler.
  rewrite N. rewrite (track_enabled _ _ _ m E). cbn [snd].
  match goal with |- context [if ?b then _ else _] => destruct b eqn:Full end.
  - apply Z.leb_le in Full. unfold pushed, bufferOf in Full. revert Full.
    tracker_fields. rewrite length_app. cbn [length]. unfold bufferOf in Below.
    lia.
  - reflexivity.
Qed.

(** X19: one batch of mutations leads to one keystroke emission at most:
    that of the last text change whose parent element exists and is not
    sensitive; and every call the observer makes comes from such a
    change. *)
Theorem mutation_batch_emits_last_change
    (d now : Z) (mutations : list Mutation.t) :
  (0 < d)%Z ->
  emissions d (map (pair now) (observerCallback mutations))
  = match rev (observerCallback mutations) with
    | [] => []
    | change :: _ => [((now + d)%Z, change)]
    end /\
  (forall el value, In (el, value) (observerCallback mutations) <->
     exists mutation, In mutation mutations /\
       Mutation.type mutation = lit "characterData" /\
       Mutation.parentElement mutation = Some el /\
       isSensitiveField (Some el) = false /\
       Mutation.nodeValue mutation = value).
Proof.
  intros D. split.
  - rewrite emissions_lastOfBursts.
    destruct (observerCallback mutations) as [|c calls]; [reflexivity|].
    cbn [map].
    assert (B : burst d now (map (pair now) calls)).
    { clear - D. induction calls as [|c' calls IH]; cbn; [exact I|].
      split; [lia | exact IH]. }
    rewrite (@lastOfBursts_burst _ d (map (pair now) calls) now c B).
    assert (L : last (map (pair now) calls) (now, c)
                = (now, last calls c)).
    { clear. revert c. induction calls as [|c' calls IH]; intros c; [reflexivity|].
      cbn [map]. rewrite !last_cons. apply IH. }
    rewrite L. cbn [map shifted fst snd].
    assert (R : exists front, rev (c :: calls) = last calls c :: front).
    { clear. revert c. induction calls as [|c' calls IH]; intros c.
      - now exists [].
      - rewrite last_cons. destruct (IH c') as [front H].
        exists (front ++ [c]). cbn [rev] in *. now rewrite H. }
    destruct R as [front ->]. reflexivity.
  - intros el value. unfold observerCallback. rewrite in_flat_map. split.
    + intros [mutation [Hin H]]. exists mutation. split; [exact Hin|].
      destruct (JsString.eqb (Mutation.type mutation) (lit "characterData")) eqn:T;
        [|contradiction].
      apply eqb_spec in T.
      destruct (Mutation.parentElement mutation) as [parent|]; [|contradiction].
      destruct (isSensitiveField (Some parent)) eqn:S; [contradiction|].
      destruct H as [H|[]]. injection H as -> ->. now repeat split.
    + intros [mutation [Hin [T [P [S V]]]]]. exists mutation. split; [exact Hin|].
      apply eqb_spec in T. rewrite T, P, S, V. now left.
Qed.

End Keystrokes.

(** ** More on [debounce] *)

Section DebounceDelivery.

Import Debounce.

Variable A : Type.


Lemma lastOfBursts_keeps_final (d : Z) (calls : list (Z * A)) :
  forall c, exists front,
    lastOfBursts d (calls ++ [c]) = front ++ [c] /\
    length front <= length calls /\
    incl front calls.
Proof.
  induction calls as [|[t a] rest IH]; intros c.
  - exists []. destruct c. cbn. repeat split; [lia | apply incl_nil_l].
  - destruct (IH c) as [front [H [L I]]].
    destruct (rest ++ [c]) as [|[t' a'] tail] eqn:R.
    { destruct rest; discriminate R. }
    change (lastOfBursts d (((t, a) :: rest) ++ [c]))
      with (lastOfBursts d ((t, a) :: rest ++ [c])).
    rewrite R.
    change (lastOfBursts d ((t, a) :: (t', a') :: tail))
      with (if (t + d <=? t')%Z
            then (t, a) :: lastOfBursts d ((t', a') :: tail)
            else lastOfBursts d ((t', a') :: tail)).
    rewrite H. destruct (t + d <=? t')%Z.
    + exists ((t, a) :: front). cbn [app length]. repeat split; [lia|].
      apply incl_cons; [now left | now apply incl_tl].
    + exists front. cbn [length]. repeat split; [lia | now apply incl_tl].
Qed.



(** X22: whatever the timing, the last call is always delivered, and it
    is the last delivery; there are never more deliveries than calls, and
    every delivery carries the arguments of some call, [delay] after it. *)
Theorem debounce_final_call_always_emits
    (d : Z) (calls : list (Z * A)) (final : Z * A) :
  exists earlier,
    emissions d (calls ++ [final]) = map (shifted d) earlier ++ [shifted d final] /\
    length earlier <= length calls /\
    incl earlier calls.
Proof.
  destruct (lastOfBursts_keeps_final d calls final) as [front [H [L I]]].
  exists front. rewrite emissions_lastOfBursts, H, map_app. now repeat split.
Qed.

End DebounceDelivery.

(** ** More on the redactor *)

Section RedactorMore.

(** X23: the descriptor can be read back as far as it goes: two texts with
    the same descriptor have the same length and are both all digits or
    both not. *)
Theorem sanitizeText_reveals_length_and_digits (s t : jsstring) :
  sanitizeText s = sanitizeText t ->
  length s = length t /\ onlyDigits s = onlyDigits t.
Proof.
  intros H.
  destruct s as [|a s], t as [|b t]; [now split | | |].
  - assert (Nt : b :: t <> []) by discriminate.
    rewrite (sanitizeText_nonempty Nt) in H. discriminate H.
  - assert (Ns : a :: s <> []) by discriminate.
    rewrite (sanitizeText_nonempty Ns) in H. discriminate H.
  - 
  assert (Ns : a :: s <> []) by discriminate.
  assert (Nt : b :: t <> []) by discriminate.
  rewrite (sanitizeText_nonempty Ns), (sanitizeText_nonempty Nt) in H.
  apply app_inv_head in H.
  destruct (onlyDigits (a :: s)), (onlyDigits (b :: t)).
  + apply app_inv_tail, numberToString_inj in H. now split.
  + now apply tags_differ in H.
  + symmetry in H. now apply tags_differ in H.
  + apply app_inv_tail, numberToString_inj in H. now split.
Qed.

(** X24: the classifier of the class is at least as strict as the one of
    the stand-alone script: what the script treats as sensitive, the class
    does too. *)
Theorem standalone_sensitive_is_sensitive (el : option Element.t) :
  Standalone.isSensitiveField el = true -> isSensitiveField el = true.
Proof.
  destruct el as [e|]; [|discriminate].
  unfold Standalone.isSensitiveField, isSensitiveField.
  assert (T : match Element.type e with
              | Some s => if falsy s then [] else toLowerCase s
              | None => []
              end = toLowerCase (orEmpty (Element.type e))).
  { destruct (Element.type e) as [[|c s]|]; reflexivity. }
  rewrite T. rewrite !orb_true_iff. tauto.
Qed.

End RedactorMore.

(** ** Bounds and blockages *)

Section Bounds.

Local Open Scope method_scope.

Lemma flush_empties (m : Machine.t) :
  hookThrows (configOf m) (bufferOf m) = false ->
  bufferOf (snd (flush m)) = [].
Proof.
  unfold configOf, bufferOf, hookThrows. intros Hpasses.
  flush_cases m; try reflexivity; discriminate Hpasses.
Qed.

(** X25: memory stays bounded while nothing fails: when [onFlush] never
    throws and every request that settles succeeds, a buffer that starts
    below the capacity stays below it through any run of tracks, timer
    ticks and settles, in every mode. *)
Theorem buffer_bounded_without_failures (actions : list Action) :
  forall m,
    (forall batch, hookThrows (configOf m) batch = false) ->
    everySettleSucceeds actions = true ->
    (Z.of_nat (length (bufferOf m)) < Config.bufferSize (configOf m))%Z ->
    (Z.of_nat (length (bufferOf (snd (run actions m))))
       < Config.bufferSize (configOf m))%Z.
Proof.
  induction actions as [|a rest IH]; intros m Hook Ok Below; [exact Below|].
  unfold everySettleSucceeds in Ok. cbn [forallb] in Ok.
  apply andb_true_iff in Ok. destruct Ok as [Oka Okr].
  destruct (step_keeps a m) as [R [C _]].
  assert (Step : (Z.of_nat (length (bufferOf (snd (step a m))))
                    < Config.bufferSize (configOf m))%Z).
  { destruct a as [env type data| |id outcome]; cbn [step].
    - destruct (Tracker.isTrackingEnabled (Machine.self m)) eqn:E.
      + rewrite (track_enabled env type data m E). cbn [snd].
        match goal with |- context [if ?b then _ else _] => destruct b eqn:Full end.
        * rewrite flush_empties by apply Hook. cbn [length]. lia.
        * apply Z.leb_gt in Full. exact Full.
      + now rewrite (track_disabled env type data m E).
    - unfold detached. cbn [snd]. rewrite flush_empties by apply Hook.
      cbn [length]. lia.
    - unfold detached. cbn [snd]. apply negb_true_iff in Oka.
      now rewrite flushSettled_success. }
  cbn [run]. unfold bind.
  destruct (step a m) as [[e|[]] m1]; cbn [fst snd] in *; [discriminate R|].
  rewrite <- C. apply IH.
  - intros batch. rewrite C. apply Hook.
  - exact Okr.
  - now rewrite C.
Qed.

Lemma flush_blocked (m : Machine.t) :
  isConsole (configOf m) = false ->
  (forall batch, hookThrows (configOf m) batch = true) ->
  bufferOf (snd (flush m)) = bufferOf m /\
  Machine.inflight (snd (flush m)) = Machine.inflight m /\
  posted (snd (flush m)) = posted m.
Proof.
  intros Mode Hook.
  destruct (bufferOf m) as [|ev rest] eqn:B.
  - rewrite (flush_idle m B). unfold bufferOf, posted in *. tracker_fields.
    rewrite filter_app. cbn. rewrite app_nil_r. now repeat split.
  - rewrite <- B. apply flush_hook_throws; [exact Mode | apply Hook].
Qed.

(** X26: an [onFlush] callback that always throws blocks delivery for
    good: outside console mode, with no request in flight, no run of
    tracks, ticks and settles ever posts anything, and on an enabled
    instance the buffer keeps every event, growing past the capacity. *)
Theorem throwing_hook_blocks_delivery (actions : list Action) :
  forall m,
    isConsole (configOf m) = false ->
    (forall batch, hookThrows (configOf m) batch = true) ->
    Machine.inflight m = [] ->
    Tracker.isTrackingEnabled (Machine.self m) = true ->
    posted (snd (run actions m)) = posted m /\
    bufferOf (snd (run actions m))
    = bufferOf m ++ trackedBy (Machine.self m) actions.
Proof.
  induction actions as [|a rest IH]; intros m Mode Hook Q E.
  - cbn. now rewrite app_nil_r.
  - destruct (step_keeps a m) as [R [C [En S]]].
    assert (Step : posted (snd (step a m)) = posted m /\
                   Machine.inflight (snd (step a m)) = [] /\
                   bufferOf (snd (step a m))
                   = bufferOf m ++ trackedBy (Machine.self m) [a]).
    { destruct a as [env type data| |id outcome];
        cbn [step trackedBy flat_map app].
      - rewrite (track_enabled env type data m E). cbn [snd].
        match goal with |- context [if ?b then _ else _] => destruct b end.
        + destruct (flush_blocked (pushed (eventOf (Machine.self m) (env, type, data)) m))
            as [B [I P]]; [exact Mode | exact Hook |].
          rewrite B, I, P. now repeat split.
        + now repeat split.
      - unfold detached. cbn [snd].
        destruct (flush_blocked m Mode Hook) as [B [I P]].
        rewrite B, I, P, app_nil_r. now repeat split.
      - unfold detached, flushSettled, resume. run_monad. rewrite Q.
        cbn [lookupRequest removeRequest]. unfold bufferOf. tracker_fields.
        rewrite app_nil_r. now repeat split. }
    destruct Step as [P1 [Q1 B1]].
    cbn [run]. unfold bind.
    destruct (step a m) as [[e|[]] m1]; cbn [fst snd] in *; [discriminate R|].
    assert (Mode1 : isConsole (configOf m1) = false) by now rewrite C.
    assert (Hook1 : forall batch, hookThrows (configOf m1) batch = true)
      by (intros batch; rewrite C; apply Hook).
    assert (E1 : Tracker.isTrackingEnabled (Machine.self m1) = true) by congruence.
    destruct (IH m1 Mode1 Hook1 Q1 E1) as [P2 B2].
    split; [congruence|].
    rewrite B2, B1, (trackedBy_session (Machine.self m1) (Machine.self m) rest S).
    rewrite <- app_assoc. f_equal.
    change (a :: rest) with ([a] ++ rest).
    unfold trackedBy. now rewrite flat_map_app.
Qed.

End Bounds.

(** ** The further properties at sample inputs *)

Section Scenarios.

Lemma console_mode_erases_endpoint_witness :
  (Options.mode Scenario.toConsole = Some (lit "console") /\
   Options.mode Scenario.toSelfHosted = Some (lit "self-hosted") /\
   Options.apiEndpoint Scenario.toSelfHosted = None) /\
  Config.apiEndpoint
    (configOf (snd (updateConfig Scenario.toSelfHosted
                      (snd (updateConfig Scenario.toConsole Sample.hosted))))) = None.
Proof.
  split; [repeat split|].
  apply (@console_mode_erases_endpoint Scenario.toConsole Scenario.toSelfHosted
           Sample.hosted); reflexivity.
Defined.

Lemma no_consent_no_collection_witness :
  (isConsole (mergeOptions Sample.selfHosted) = false /\
   consentGiven (consentAnswer (mergeOptions Sample.selfHosted) ConsentDenied) = false) /\
  bufferOf (snd (run [trackAction (Sample.click "A"); TimerTick]
                     (snd (constructor Sample.selfHosted (Sample.env 0) ConsentDenied))))
  = [].
Proof.
  split; [split; reflexivity|].
  apply (@no_consent_no_collection Sample.selfHosted (Sample.env 0) ConsentDenied
           [trackAction (Sample.click "A"); TimerTick]); reflexivity.
Defined.

Lemma enable_disable_enable_witness :
  (Tracker.isTrackingEnabled (Machine.self Scenario.declined) = false /\
   Tracker.listeners (Machine.self Scenario.declined) = [] /\
   Tracker.observers (Machine.self Scenario.declined) = 0 /\
   Tracker.flushTimer (Machine.self Scenario.declined) = None) /\
  Machine.self (snd (enable (Sample.env 0)
                       (snd (disable (snd (enable (Sample.env 0) Scenario.declined))))))
  = Machine.self (snd (enable (Sample.env 0) Scenario.declined)).
Proof.
  split; [repeat split|].
  apply (@enable_disable_enable (Sample.env 0) Scenario.declined); reflexivity.
Defined.

Lemma destroy_discards_witness :
  Machine.inflight Sample.loaded = [] /\
  bufferOf (snd (run [trackAction (Sample.click "D"); TimerTick]
                     (snd (destroy Sample.loaded)))) = [] /\
  posted (snd (destroy Sample.loaded)) = posted Sample.loaded.
Proof.
  split; [reflexivity|].
  pose proof (@destroy_discards Sample.loaded
                [trackAction (Sample.click "D"); TimerTick] eq_refl) as P.
  cbn zeta in P. destruct P as [_ [P [_ [B _]]]]. split; [exact B | exact P].
Defined.

Lemma destroy_keeps_request_in_flight_witness :
  (lookupRequest 0 (Machine.inflight Scenario.waiting) = Some Sample.abc /\
   sendFails FetchRejected = true) /\
  bufferOf (snd (flushSettled 0 FetchRejected (snd (destroy Scenario.waiting))))
  = Sample.abc.
Proof.
  split; [split; reflexivity|].
  apply (@destroy_keeps_request_in_flight Scenario.waiting 0 Sample.abc
           FetchRejected); reflexivity.
Defined.

Lemma flush_without_endpoint_loses_batch_witness :
  (bufferOf Scenario.withoutEndpoint <> [] /\
   Machine.inflight Scenario.withoutEndpoint = [] /\
   isConsole (configOf Scenario.withoutEndpoint) = false /\
   hookThrows (configOf Scenario.withoutEndpoint) (bufferOf Scenario.withoutEndpoint)
   = false /\
   truthyString (Config.apiEndpoint (configOf Scenario.withoutEndpoint)) = false) /\
  held (snd (flush Scenario.withoutEndpoint)) = [].
Proof.
  assert (N : bufferOf Scenario.withoutEndpoint <> []) by discriminate.
  split; [repeat split; exact N|].
  apply (@flush_without_endpoint_loses_batch Scenario.withoutEndpoint 0
           FetchRejected N); reflexivity.
Defined.

Lemma capacity_reached_posts_once_witness :
  (Tracker.isTrackingEnabled (Machine.self Sample.hosted) = true /\
   bufferOf Sample.hosted = [] /\
   isConsole (configOf Sample.hosted) = false /\
   Config.apiEndpoint (configOf Sample.hosted) = Some (lit "/track") /\
   falsy (lit "/track") = false /\
   Config.bufferSize (configOf Sample.hosted)
   = Z.of_nat (S (length [Sample.click "A"; Sample.click "B"]))) /\
  posted (snd (run (map trackAction
                      ([Sample.click "A"; Sample.click "B"] ++ [Sample.click "C"]))
                   Sample.hosted))
  = posted Sample.hosted ++
    [FetchPosted (lit "/track")
       (map (eventOf (Machine.self Sample.hosted))
            ([Sample.click "A"; Sample.click "B"] ++ [Sample.click "C"]))].
Proof.
  split; [repeat split|].
  apply (@capacity_reached_posts_once Sample.hosted
           [Sample.click "A"; Sample.click "B"] (Sample.click "C") (lit "/track"));
    reflexivity.
Defined.

Lemma failed_batch_is_posted_again_witness :
  (lookupRequest 0 (Machine.inflight Scenario.waiting) = Some Sample.abc /\
   Sample.abc <> [] /\
   sendFails (Responded false true) = true /\
   isConsole (configOf Scenario.waiting) = false /\
   Config.apiEndpoint (configOf Scenario.waiting) = Some (lit "/track") /\
   falsy (lit "/track") = false /\
   hookThrows (configOf Scenario.waiting) (Sample.abc ++ bufferOf Scenario.waiting)
   = false) /\
  posted (snd (flush (snd (flushSettled 0 (Responded false true) Scenario.waiting))))
  = posted Scenario.waiting ++
    [FetchPosted (lit "/track") (Sample.abc ++ bufferOf Scenario.waiting)].
Proof.
  assert (N : Sample.abc <> []) by discriminate.
  split; [repeat split; exact N|].
  apply (@failed_batch_is_posted_again Scenario.waiting 0 Sample.abc
           (Responded false true) (lit "/track")); try reflexivity; exact N.
Defined.

Lemma nothing_lost_while_requests_fail_witness :
  (Tracker.isTrackingEnabled (Machine.self Sample.loaded) = true /\
   isConsole (configOf Sample.loaded) = false /\
   truthyString (Config.apiEndpoint (configOf Sample.loaded)) = true /\
   everySettleFails Scenario.outage = true) /\
  Permutation (held (snd (run Scenario.outage Sample.loaded)))
              (held Sample.loaded
               ++ trackedBy (Machine.self Sample.loaded) Scenario.outage).
Proof.
  split; [repeat split|].
  apply (@nothing_lost_while_requests_fail Scenario.outage Sample.loaded);
    reflexivity.
Defined.

Lemma revisions_agree_outside_console_witness :
  isConsole (configOf Sample.twoClicks) = false /\
  track (Sample.env 9) (lit "mouse") (snd (Sample.click "C")) Sample.twoClicks
  = Legacy.track (Sample.env 9) (lit "mouse") (snd (Sample.click "C"))
                 Sample.twoClicks.
Proof.
  split; [reflexivity|].
  apply (@revisions_agree_outside_console Sample.twoClicks (Sample.env 9)
           (lit "mouse") (snd (Sample.click "C")) ConsentGiven).
  reflexivity.
Defined.

Lemma sensitive_keystrokes_vanish_witness :
  (Forall (fun e => isSensitiveField (Some (fst (snd e))) = true)
          Scenario.secretTyping /\
   Tracker.isTrackingEnabled (Machine.self Sample.loaded) = true /\
   (Z.of_nat (S (length (bufferOf Sample.loaded)))
      < Config.bufferSize (configOf Sample.loaded))%Z) /\
  deliver (Sample.env 0) Scenario.secretTyping Sample.loaded = (inr tt, Sample.loaded).
Proof.
  assert (F : Forall (fun e => isSensitiveField (Some (fst (snd e))) = true)
                     Scenario.secretTyping).
  { repeat constructor. }
  assert (B : (Z.of_nat (S (length (bufferOf Sample.loaded)))
                 < Config.bufferSize (configOf Sample.loaded))%Z) by reflexivity.
  split; [repeat split; assumption|].
  apply (@sensitive_keystrokes_vanish (Sample.env 0) Scenario.secretTyping
           Sample.loaded Scenario.clickOnPassword F eq_refl B).
Defined.

Lemma keystroke_burst_buffers_last_value_witness :
  (Debounce.burst 400 0 Scenario.typed /\
   isSensitiveField (Some Scenario.emailField) = false /\
   Tracker.isTrackingEnabled (Machine.self Sample.loaded) = true /\
   (Z.of_nat (S (length (bufferOf Sample.loaded)))
      < Config.bufferSize (configOf Sample.loaded))%Z) /\
  bufferOf (snd (deliver (Sample.env 0)
                   (Debounce.emissions 400
                      ((0%Z, (Scenario.emailField, lit "a")) :: Scenario.typed))
                   Sample.loaded))
  = bufferOf Sample.loaded ++
    [keystrokeEvent (Machine.self Sample.loaded) (Sample.env 0) 650
                    Scenario.emailField (lit "abc")].
Proof.
  assert (B : Debounce.burst 400 0 Scenario.typed).
  { cbn. repeat split; lia. }
  assert (C : (Z.of_nat (S (length (bufferOf Sample.loaded)))
                 < Config.bufferSize (configOf Sample.loaded))%Z) by reflexivity.
  split; [split; [exact B | split; [reflexivity | split; [reflexivity | exact C]]]|].
  apply (@keystroke_burst_buffers_last_value (Sample.env 0) 400 0
           (Scenario.emailField, lit "a") Scenario.typed Sample.loaded
           B eq_refl eq_refl C).
Defined.

Lemma mutation_batch_emits_last_change_witness :
  (0 < 400)%Z /\
  Debounce.emissions 400 (map (pair 0%Z) (observerCallback Scenario.changes))
  = [(400%Z, (Scenario.emailField, lit "ab"))].
Proof.
  split; [lia|].
  apply (@mutation_batch_emits_last_change 400 0 Scenario.changes). lia.
Defined.


Lemma standalone_sensitive_is_sensitive_witness :
  Standalone.isSensitiveField (Some Scenario.passwordField) = true /\
  isSensitiveField (Some Scenario.passwordField) = true.
Proof.
  split; [reflexivity|].
  apply (@standalone_sensitive_is_sensitive (Some Scenario.passwordField)).
  reflexivity.
Defined.

Lemma buffer_bounded_without_failures_witness :
  ((forall batch, hookThrows (configOf Sample.hosted) batch = false) /\
   everySettleSucceeds
     [trackAction (Sample.click "A"); trackAction (Sample.click "B");
      trackAction (Sample.click "C"); Settle 0 (Responded true true);
      trackAction (Sample.click "D")] = true /\
   (Z.of_nat (length (bufferOf Sample.hosted))
      < Config.bufferSize (configOf Sample.hosted))%Z) /\
  (Z.of_nat (length (bufferOf (snd (run
     [trackAction (Sample.click "A"); trackAction (Sample.click "B");
      trackAction (Sample.click "C"); Settle 0 (Responded true true);
      trackAction (Sample.click "D")] Sample.hosted))))
     < Config.bufferSize (configOf Sample.hosted))%Z.
Proof.
  assert (H : forall batch, hookThrows (configOf Sample.hosted) batch = false)
    by (intros batch; reflexivity).
  split; [split; [exact H | split; reflexivity]|].
  apply (@buffer_bounded_without_failures
           [trackAction (Sample.click "A"); trackAction (Sample.click "B");
            trackAction (Sample.click "C"); Settle 0 (Responded true true);
            trackAction (Sample.click "D")] Sample.hosted H); reflexivity.
Defined.

Lemma throwing_hook_blocks_delivery_witness :
  (isConsole (configOf Scenario.blocked) = false /\
   (forall batch, hookThrows (configOf Scenario.blocked) batch = true) /\
   Machine.inflight Scenario.blocked = [] /\
   Tracker.isTrackingEnabled (Machine.self Scenario.blocked) = true /\
   length (bufferOf Scenario.blocked) = 3) /\
  posted (snd (run [TimerTick; trackAction (Sample.click "D"); TimerTick]
                   Scenario.blocked)) = [].
Proof.
  assert (H : forall batch, hookThrows (configOf Scenario.blocked) batch = true)
    by (intros batch; reflexivity).
  split; [split; [reflexivity | split; [exact H | repeat split]]|].
  apply (@throwing_hook_blocks_delivery
           [TimerTick; trackAction (Sample.click "D"); TimerTick]
           Scenario.blocked eq_refl H eq_refl eq_refl).
Defined.

Lemma sanitizeText_reveals_length_and_digits_witness :
  sanitizeText (lit "secret") = sanitizeText (lit "hidden") /\
  length (lit "secret") = length (lit "hidden") /\
  onlyDigits (lit "secret") = onlyDigits (lit "hidden").
Proof.
  split; [reflexivity|].
  apply (@sanitizeText_reveals_length_and_digits (lit "secret") (lit "hidden")).
  reflexivity.
Defined.

End Scenarios.
